(** * IR2Vec / MIR2Vec scripting bindings: a shallow embedding

    The development follows the three sources of the tool:
    - [IR2VecTool.h]: the relation kinds, [Triplet], [TripletResult] and the
      declarations of the portable-IR tool;
    - [ir2vec_bindings.cpp] (it follows the two build scripts in
      [bindings/IR2Vec/build_llvm.sh]): the session object [PyIR2VecTool]
      and the module level entry point [initEmbedding];
    - [bindings/MIR2Vec/mir2vec_bindings.cpp]: the session object
      [PyMIR2VecTool].

    C++ exceptions are an explicit outcome, the process-wide vocabulary path
    is a field of an explicit [World], and the collaborators whose bodies are
    not part of these sources (file system, IR parser, machine-context setup,
    vocabulary loader, the machine-level tool) are fields of an [Env].  The
    triplet walk and the embedding aggregation, declared in the header but
    defined elsewhere, are modelled from the specification and marked so. *)

From Stdlib Require Import String Ascii List Bool Arith NArith ZArith Lia.
From Stdlib Require Import Permutation Floats.
Import ListNotations.

Open Scope string_scope.
Open Scope list_scope.

(* ===================================================================== *)
(** * Outcomes and the state-and-exception monad                          *)
(* ===================================================================== *)

(** A call returns, throws [std::runtime_error(what)], or stops at a failed
    [assert]. *)
Inductive Outcome (A : Type) : Type :=
| Returned (a : A)
| Thrown (what : string)
| Aborted (assertion : string).

Arguments Returned {A} a.
Arguments Thrown {A} what.
Arguments Aborted {A} assertion.

(** State written before a throw stays written, as in C++. *)
Definition M (S A : Type) : Type := S -> Outcome A * S.

Definition ret {S A : Type} (a : A) : M S A := fun s => (Returned a, s).

Definition throw {S A : Type} (what : string) : M S A :=
  fun s => (Thrown what, s).

Definition abort {S A : Type} (assertion : string) : M S A :=
  fun s => (Aborted assertion, s).

Definition bind {S A B : Type} (m : M S A) (k : A -> M S B) : M S B :=
  fun s =>
    match m s with
    | (Returned a, s') => k a s'
    | (Thrown w, s') => (Thrown w, s')
    | (Aborted a, s') => (Aborted a, s')
    end.

Definition gets {S A : Type} (f : S -> A) : M S A := fun s => (Returned (f s), s).

Definition modify {S : Type} (f : S -> S) : M S unit := fun s => (Returned tt, f s).

(** [if (c) throw ...;] *)
Definition when {S : Type} (c : bool) (m : M S unit) : M S unit :=
  if c then m else ret tt.

Declare Scope monad_scope.
Delimit Scope monad_scope with monad.
Notation "x <- m ;; k" := (bind m (fun x => k))
  (at level 61, m at next level, right associativity) : monad_scope.
Notation "m ;; k" := (bind m (fun _ => k))
  (at level 61, right associativity) : monad_scope.
Open Scope monad_scope.

Definition succeeded {A : Type} (o : Outcome A) : bool :=
  match o with Returned _ => true | _ => false end.

Definition failed {A : Type} (o : Outcome A) : bool := negb (succeeded o).

(* ===================================================================== *)
(** * The taxonomy of failures                                            *)
(* ===================================================================== *)

Inductive ErrorKind : Type :=
| InputError
| ConfigurationError
| UnsupportedMode
| StateError
| UnsupportedCapability.

(** Modelled from the spec: the error taxonomy is not part of the sources,
    which throw [std::runtime_error] with a message throughout.  Each message
    of the two binding files is filed under the kind the specification gives
    its cause: unreadable file, unparseable module, unknown function and
    missing lowered form are input errors; an empty or unusable vocabulary
    path is a configuration error; a rejected mode is [UnsupportedMode] (a
    configuration error in the coarser taxonomy); the disabled machine-level
    embedding path is [UnsupportedCapability]. *)
Definition kindOf (what : string) : option ErrorKind :=
  if what =? "Invalid file path" then Some InputError
  else if what =? "Failed to parse IR file." then Some InputError
  else if prefix "Failed to setup MIR context: " what then Some InputError
  else if prefix "Function not found or is a declaration: " what then Some InputError
  else if prefix "No MachineFunction found for: " what then Some InputError
  else if what =? "Invalid mode. Use 'sym' or 'fa'" then Some UnsupportedMode
  else if what =? "Invalid mode. Only 'sym' mode supported." then Some UnsupportedMode
  else if what =? "Error - Empty Vocab Path not allowed" then Some ConfigurationError
  else if what =? "Failed to initialize IR2Vec vocabulary" then Some ConfigurationError
  else if what =? "Failed to initialize MIR2Vec vocabulary" then Some ConfigurationError
  else if what =? "Function Not Implemented" then Some UnsupportedCapability
  else None.

(** The kind of a call's failure, if it threw. *)
Definition failureKind {A : Type} (o : Outcome A) : option ErrorKind :=
  match o with
  | Thrown w => kindOf w
  | _ => None
  end.


(* ===================================================================== *)
(** * Programs: modules, functions, blocks, instructions                  *)
(* ===================================================================== *)

(** Entities are identified by their index in the catalog ([unsigned]). *)
Definition EntityId : Type := N.

Record Instruction : Type := {
  opcodeEntity : EntityId;
  resultTypeEntity : option EntityId;
  operandEntities : list EntityId
}.

Record BasicBlock : Type := {
  BBName : string;
  instructions : list Instruction
}.

Record Function : Type := {
  getName : string;
  blocks : list BasicBlock
}.

(** [Function::isDeclaration]: no body. *)
Definition isDeclaration (F : Function) : bool :=
  match blocks F with
  | [] => true
  | _ :: _ => false
  end.

Record Module : Type := {
  functions : list Function
}.

(** [Module::getFunction]: look the name up, null when absent. *)
Definition getFunction (Mod : Module) (Name : string) : option Function :=
  find (fun F => getName F =? Name) (functions Mod).

(* ===================================================================== *)
(** * [IR2VecTool.h]: relations and triplets                              *)
(* ===================================================================== *)

Inductive RelationType : Type :=
| TypeRelation
| NextRelation
| ArgRelation.

(** The enumerators' values. *)
Definition RelationType_value (r : RelationType) : N :=
  match r with
  | TypeRelation => 0
  | NextRelation => 1
  | ArgRelation => 2
  end%N.

Record Triplet : Type := {
  Head : N;
  Tail : N;
  Relation : N
}.

Record TripletResult : Type := {
  MaxRelation : N;
  Triplets : list Triplet
}.

(** [py::dict(max_relation = ..., triplets = [...])] *)
Record PyTripletDict : Type := {
  max_relation : N;
  triplets : list (N * N * N)
}.

(** The loop of [generateTriplets] that turns the result into Python
    values, shared verbatim by both bindings. *)
Definition toPyTripletDict (result : TripletResult) : PyTripletDict :=
  {| max_relation := MaxRelation result;
     triplets := map (fun t => (Head t, Tail t, Relation t)) (Triplets result) |}.

(* ===================================================================== *)
(** * Triplet extraction                                                  *)
(* ===================================================================== *)

Module TripletExtractor.

(** Modelled from the spec: the body of [IR2VecTool::getTriplets] is not in
    the sources (the header only declares it).  For an instruction with
    opcode entity O: a [TypeRelation] triple to its result type entity when
    it has one. *)
Definition typeTriplets (Inst : Instruction) : list Triplet :=
  match resultTypeEntity Inst with
  | Some T => [ {| Head := opcodeEntity Inst; Tail := T;
                   Relation := RelationType_value TypeRelation |} ]
  | None => []
  end.

(** Modelled from the spec: the missing walk emits a [NextRelation] triple
    to the opcode entity of the instruction that immediately follows in the
    same block; [rest] is what remains of the block after [Inst]. *)
Definition nextTriplets (Inst : Instruction) (rest : list Instruction) : list Triplet :=
  match rest with
  | Inst' :: _ => [ {| Head := opcodeEntity Inst; Tail := opcodeEntity Inst';
                    Relation := RelationType_value NextRelation |} ]
  | [] => []
  end.

(** Modelled from the spec: the missing walk emits one [ArgRelation] triple
    per operand entity P of the instruction, head P and tail O. *)
Definition argTriplets (Inst : Instruction) : list Triplet :=
  map (fun P => {| Head := P; Tail := opcodeEntity Inst;
                   Relation := RelationType_value ArgRelation |})
      (operandEntities Inst).

(** Modelled from the spec: the missing walk over one block, instructions in
    program order. *)
Fixpoint blockTriplets (insts : list Instruction) : list Triplet :=
  match insts with
  | [] => []
  | Inst :: rest =>
      typeTriplets Inst ++ nextTriplets Inst rest ++ argTriplets Inst ++ blockTriplets rest
  end.

(** Modelled from the spec: the missing walk over one function, blocks in
    layout order. *)
Definition functionTriplets (F : Function) : list Triplet :=
  flat_map (fun B => blockTriplets (instructions B)) (blocks F).

(** Modelled from the spec: [MaxRelation], missing with the body of
    [getTriplets], is the upper bound of the relation-kind domain declared
    in the header, whatever the walk observed. *)
Definition relationUpperBound : N :=
  fold_right N.max 0%N
    (map RelationType_value [TypeRelation; NextRelation; ArgRelation]).

(** Modelled from the spec: [IR2VecTool::getTriplets(const Function &)],
    declared in the header, body missing. *)
Definition getTriplets_function (F : Function) : TripletResult :=
  {| MaxRelation := relationUpperBound; Triplets := functionTriplets F |}.

(** Modelled from the spec: [IR2VecTool::getTriplets()], declared in the
    header, body missing: the same walk over every function of the module. *)
Definition getTriplets (Mod : Module) : TripletResult :=
  {| MaxRelation := relationUpperBound;
     Triplets := flat_map functionTriplets (functions Mod) |}.

Definition isNext (t : Triplet) : bool :=
  (Relation t =? RelationType_value NextRelation)%N.

Definition isArg (t : Triplet) : bool :=
  (Relation t =? RelationType_value ArgRelation)%N.

(** The pairs of opcode entities of instructions that follow each other in
    one instruction sequence. *)
Fixpoint adjacentOpcodes (insts : list Instruction) : list (N * N) :=
  match insts with
  | [] => []
  | Inst :: rest =>
      match rest with
      | Inst' :: _ => (opcodeEntity Inst, opcodeEntity Inst') :: adjacentOpcodes rest
      | [] => []
      end
  end.

Definition pairOf (t : Triplet) : N * N := (Head t, Tail t).

(** The in-block successor pairs of a module, block by block. *)
Definition inBlockSuccessors (Mod : Module) : list (N * N) :=
  flat_map (fun F => flat_map (fun B => adjacentOpcodes (instructions B)) (blocks F))
           (functions Mod).

(** [Inst'] immediately follows [Inst] in block [B] of a function of [Mod]. *)
Definition consecutiveIn (Mod : Module) (Inst Inst' : Instruction) : Prop :=
  exists F B pre post,
    In F (functions Mod) /\ In B (blocks F) /\
    instructions B = pre ++ Inst :: Inst' :: post.

End TripletExtractor.

(* ===================================================================== *)
(** * Embedding aggregation                                               *)
(* ===================================================================== *)

Module EmbeddingAggregator.

Inductive AggregationError : Type :=
| NotInitialized
| UnknownEntity (id : EntityId).

Section Scalars.

(** The scalar type of an embedding with its addition and scaling; the
    bindings hand [double]s to Python. *)
Variable R : Type.
Variable Rzero : R.
Variable Radd : R -> R -> R.
Variable Rmul : R -> R -> R.

Definition Embedding : Type := list R.

(** Modelled from the spec: the [Vocabulary] class is not in the sources.
    An entity id indexes [vectors]; [dimension] is the declared length of
    every vector; the three weights are the fixed structural weights of the
    symbolic mode. *)
Record Vocabulary : Type := {
  dimension : nat;
  vectors : list Embedding;
  opcodeWeight : R;
  typeWeight : R;
  argWeight : R
}.

Definition canonicalSize (V : Vocabulary) : nat := length (vectors V).

(** Modelled from the spec: a successfully loaded vocabulary, missing from
    the sources, has one vector of the declared dimension per entity. *)
Definition wellFormed (V : Vocabulary) : Prop :=
  Forall (fun e => length e = dimension V) (vectors V).

Definition zeroEmbedding (D : nat) : Embedding := repeat Rzero D.

(** Elementwise addition. *)
Definition addEmbedding (a b : Embedding) : Embedding :=
  map (fun p => Radd (fst p) (snd p)) (combine a b).

(** Scalar scaling. *)
Definition scaleEmbedding (w : R) (a : Embedding) : Embedding := map (Rmul w) a.

(** Modelled from the spec: the vocabulary lookup, missing from the
    sources, fails on an entity without a slot. *)
Definition entityVector (V : Vocabulary) (w : R) (id : EntityId)
  : AggregationError + Embedding :=
  match nth_error (vectors V) (N.to_nat id) with
  | Some e => inr (scaleEmbedding w e)
  | None => inl (UnknownEntity id)
  end.

(** Modelled from the spec: the combination rule shared by the three
    levels, missing from the sources: the contributions of the level below
    are added to the accumulator one after the other, in the order given. *)
Fixpoint aggregate {X : Type} (embed : X -> AggregationError + Embedding)
         (acc : Embedding) (xs : list X) : AggregationError + Embedding :=
  match xs with
  | [] => inr acc
  | x :: rest =>
      match embed x with
      | inl e => inl e
      | inr v => aggregate embed (addEmbedding acc v) rest
      end
  end.

(** Modelled from the spec: [embedInstruction] in symbolic mode, missing
    from the sources: the weighted opcode vector, the weighted result type
    vector when there is one, and the weighted vector of each operand. *)
Definition embedInstruction (V : Vocabulary) (Inst : Instruction)
  : AggregationError + Embedding :=
  aggregate (fun c => entityVector V (fst c) (snd c))
            (zeroEmbedding (dimension V))
            ((opcodeWeight V, opcodeEntity Inst)
               :: match resultTypeEntity Inst with
                  | Some T => [(typeWeight V, T)]
                  | None => []
                  end
               ++ map (fun P => (argWeight V, P)) (operandEntities Inst)).

(** Modelled from the spec: [embedBlock], missing from the sources. *)
Definition embedBlock (V : Vocabulary) (B : BasicBlock)
  : AggregationError + Embedding :=
  aggregate (embedInstruction V) (zeroEmbedding (dimension V)) (instructions B).

(** Modelled from the spec: [embedFunction], missing from the sources. *)
Definition embedFunction (V : Vocabulary) (F : Function)
  : AggregationError + Embedding :=
  aggregate (embedBlock V) (zeroEmbedding (dimension V)) (blocks F).

(** The keyed lists of the header ([InstVecList], [BBVecList]): one entry
    per item, in order. *)
Fixpoint keyed {X : Type} (key : X -> string)
         (embed : X -> AggregationError + Embedding) (xs : list X)
  : AggregationError + list (string * Embedding) :=
  match xs with
  | [] => inr []
  | x :: rest =>
      match embed x, keyed key embed rest with
      | inl e, _ => inl e
      | _, inl e => inl e
      | inr v, inr vs => inr ((key x, v) :: vs)
      end
  end.

End Scalars.

Arguments dimension {R} v.
Arguments vectors {R} v.
Arguments opcodeWeight {R} v.
Arguments typeWeight {R} v.
Arguments argWeight {R} v.
Arguments canonicalSize {R} V.
Arguments wellFormed {R} V.
Arguments zeroEmbedding {R} Rzero D.
Arguments addEmbedding {R} Radd a b.
Arguments scaleEmbedding {R} Rmul w a.
Arguments entityVector {R} Rmul V w id.
Arguments aggregate {R} Radd {X} embed acc xs.
Arguments embedInstruction {R} Rzero Radd Rmul V Inst.
Arguments embedBlock {R} Rzero Radd Rmul V B.
Arguments embedFunction {R} Rzero Radd Rmul V F.
Arguments keyed {R X} key embed xs.

End EmbeddingAggregator.

(* ===================================================================== *)
(** * The process and its collaborators                                   *)
(* ===================================================================== *)

(** The bindings hand [double]s to Python ([py::array_t<double>]). *)
Definition FloatEmbedding : Type := EmbeddingAggregator.Embedding float.
Definition FloatVocabulary : Type := EmbeddingAggregator.Vocabulary float.

(** What a session does to the rest of the process, in program order. *)
Inductive Event : Type :=
| ParsedIRFile (Filename : string)
| SetUpMIRContext (Filename : string)
| SetIR2VecVocabPath (Path : string)
| SetMIR2VecVocabPath (Path : string)
| InitializedVocabulary (observedPath : string)
| InitializedMIRVocabulary (observedPath : string)
| InitializedMIRVocabularyForLayout
| QueriedEntityMappings
| QueriedTriplets
| QueriedEmbeddings.

(** The process-wide state: the two vocabulary paths behind
    [setIR2VecVocabPath] / [setMIR2VecVocabPath], and the log of events. *)
Record World : Type := {
  IR2VecVocabPath : string;
  MIR2VecVocabPath : string;
  trace : list Event
}.

Definition emit (ev : Event) : M World unit :=
  modify (fun w => {| IR2VecVocabPath := IR2VecVocabPath w;
                      MIR2VecVocabPath := MIR2VecVocabPath w;
                      trace := trace w ++ [ev] |}).

(** The machine-level program: a function's lowered form. *)
Record MachineFunction : Type := {
  MFName : string;
  MFBlocks : list BasicBlock
}.

(** [MIRContext]: the module and the machine module information, which
    holds the lowered form of the functions that have one. *)
Record MIRContext : Type := {
  CtxM : Module;
  MMI_getMachineFunction : Function -> option MachineFunction
}.

(** The vocabulary of the machine-level tool, as far as the bindings look
    at it. *)
Record MIRVocabulary : Type := {
  getDimension : nat;
  getCanonicalSize : nat
}.

(** [MIR2VecTool]: what [getVocabulary] returns, null before
    initialization. *)
Record MIR2VecTool : Type := {
  getVocabulary : option MIRVocabulary
}.

(** The collaborators of the bindings.  None of their bodies is in the
    sources; a binding is verified for every behaviour they may have. *)
Record Env : Type := {
  (** [std::ifstream::good] after opening the file *)
  file_good : string -> bool;
  (** [parseIRFile]: the module, or null *)
  parseIRFile : string -> option Module;
  (** the vocabulary [IR2VecTool::initializeVocabulary] loads for a module
      when the process-wide path is the one given; [None] is its [false] *)
  IR_loadVocabulary : string -> Module -> option FloatVocabulary;
  (** [setupMIRContext]: the context, or the rendered [llvm::Error] *)
  setupMIRContext : string -> string + MIRContext;
  (** [MIR2VecTool::initializeVocabulary] under the given process-wide path *)
  MIR_initializeVocabulary : string -> MIRContext -> MIR2VecTool -> bool * MIR2VecTool;
  (** [MIR2VecTool::initializeVocabularyForLayout] *)
  MIR_initializeVocabularyForLayout : MIRContext -> MIR2VecTool -> bool * MIR2VecTool;
  MIR_getEntityMappings : MIR2VecTool -> list string;
  MIR_getTriplets : MIR2VecTool -> Module -> TripletResult;
  MIR_getFunctionEmbeddings :
    MIR2VecTool -> Module -> list (string * (string * FloatEmbedding));
  MIR_getMBBEmbeddings : MIR2VecTool -> MachineFunction -> list (string * FloatEmbedding);
  MIR_getMInstEmbeddings : MIR2VecTool -> MachineFunction -> list (string * FloatEmbedding);
  (** the display name of a function (name decoration removed) *)
  demangle : string -> string;
  (** the key an instruction is listed under *)
  instructionKey : Instruction -> string;
  (** the build keeps [assert]s (no [NDEBUG]) *)
  assertionsEnabled : bool
}.

(** An argument the caller may leave out, with its [py::arg(...) = default]. *)
Definition argOr (default : string) (given : option string) : string :=
  match given with
  | Some v => v
  | None => default
  end.

(** [py::array_t<double> np_array(data.size(), data.data())] *)
Definition np_array (data : list float) : list float := firstn (length data) data.

(** The loop of the bindings over a keyed list of embeddings. *)
Definition toPyList (embeddings : list (string * FloatEmbedding))
  : list (string * list float) :=
  map (fun ke => (fst ke, np_array (snd ke))) embeddings.

(** The loop of [getFuncVectorMap] over the function map. *)
Definition toPyDict (result : list (string * (string * FloatEmbedding)))
  : list (string * (string * list float)) :=
  map (fun e => (fst e, (fst (snd e), np_array (snd (snd e))))) result.

(* ===================================================================== *)
(** * [ir2vec_bindings.cpp]                                               *)
(* ===================================================================== *)

Module IR2Vec.

Import EmbeddingAggregator.

(** [IR2VecTool]: the module and the vocabulary pointer, null until
    initialized. *)
Record IR2VecTool : Type := {
  getModule : Module;
  Vocab : option FloatVocabulary
}.

(** [explicit IR2VecTool(Module &M) : M(M), Vocab(nullptr)] *)
Definition IR2VecTool_new (Mod : Module) : IR2VecTool :=
  {| getModule := Mod; Vocab := None |}.

(** [PyIR2VecTool]: the members [M] and [Tool] (the [LLVMContext] carries
    nothing the bindings read). *)
Record PyIR2VecTool : Type := {
  PyM : Module;
  Tool : IR2VecTool
}.

Section Bindings.

Variable env : Env.

Definition fileNotValid (Filename : string) : bool :=
  negb (file_good env Filename).

(** Modelled from the spec: [setIR2VecVocabPath] is declared in the binding
    and defined elsewhere; it overwrites the process-wide path. *)
Definition setIR2VecVocabPath (Path : string) : M World unit :=
  modify (fun w => {| IR2VecVocabPath := Path;
                      MIR2VecVocabPath := MIR2VecVocabPath w;
                      trace := trace w ++ [SetIR2VecVocabPath Path] |}).

(** Modelled from the spec: [getIR2VecVocabPath] is declared in the binding
    and defined elsewhere; it reads the process-wide path. *)
Definition getIR2VecVocabPath : M World string := gets IR2VecVocabPath.

Definition getLLVMIR (Filename : string) : M World Module :=
  emit (ParsedIRFile Filename) ;;
  match parseIRFile env Filename with
  | None => throw "Failed to parse IR file."
  | Some Mod => ret Mod
  end.

(** Modelled from the spec: [IR2VecTool::initializeVocabulary] is declared
    in the header, its body missing.  It observes the process-wide path at
    the time of the call and loads the vocabulary from there. *)
Definition initializeVocabulary (T : IR2VecTool) : M World (bool * IR2VecTool) :=
  Path <- getIR2VecVocabPath ;;
  emit (InitializedVocabulary Path) ;;
  match IR_loadVocabulary env Path (getModule T) with
  | Some V => ret (true, {| getModule := getModule T; Vocab := Some V |})
  | None => ret (false, T)
  end.

(** The constructor [PyIR2VecTool::PyIR2VecTool]. *)
Definition PyIR2VecTool_new (Filename Mode VocabOverride : string)
  : M World PyIR2VecTool :=
  when (fileNotValid Filename) (throw "Invalid file path") ;;
  when (negb (Mode =? "sym") && negb (Mode =? "fa"))
       (throw "Invalid mode. Use 'sym' or 'fa'") ;;
  Mod <- getLLVMIR Filename ;;
  let T := IR2VecTool_new Mod in
  when (VocabOverride =? "") (throw "Error - Empty Vocab Path not allowed") ;;
  setIR2VecVocabPath VocabOverride ;;
  r <- initializeVocabulary T ;;
  when (negb (fst r)) (throw "Failed to initialize IR2Vec vocabulary") ;;
  ret {| PyM := Mod; Tool := snd r |}.

(** The module-level [initEmbedding(filename, mode = "sym",
    vocab_override = "")]. *)
Definition initEmbedding (filename : string) (mode vocab_override : option string)
  : M World PyIR2VecTool :=
  PyIR2VecTool_new filename (argOr "sym" mode) (argOr "" vocab_override).

(** Modelled from the spec: the bodies behind the header's embedding
    getters are missing; an operation that needs vectors fails with
    [NotInitialized] while the vocabulary pointer is null. *)
Definition withVocabulary {A : Type} (T : IR2VecTool)
           (k : FloatVocabulary -> AggregationError + A) : AggregationError + A :=
  match Vocab T with
  | None => inl NotInitialized
  | Some V => k V
  end.

Definition fembedInstruction := embedInstruction 0%float PrimFloat.add PrimFloat.mul.
Definition fembedBlock := embedBlock 0%float PrimFloat.add PrimFloat.mul.
Definition fembedFunction := embedFunction 0%float PrimFloat.add PrimFloat.mul.

(** Modelled from the spec: [IR2VecTool::getFunctionEmbedding], declared in
    the header, body missing: display name, linkage name, embedding. *)
Definition getFunctionEmbedding (T : IR2VecTool) (F : Function)
  : AggregationError + (string * (string * FloatEmbedding)) :=
  withVocabulary T (fun V =>
    match fembedFunction V F with
    | inl e => inl e
    | inr v => inr (demangle env (getName F), (getName F, v))
    end).

(** Modelled from the spec: [IR2VecTool::getBBEmbeddings(const Function &)],
    declared in the header, body missing: blocks in layout order. *)
Definition getBBEmbeddings_function (T : IR2VecTool) (F : Function)
  : AggregationError + list (string * FloatEmbedding) :=
  withVocabulary T (fun V => keyed BBName (fembedBlock V) (blocks F)).

(** Modelled from the spec: [IR2VecTool::getInstEmbeddings(const Function &)],
    declared in the header, body missing: instructions in program order. *)
Definition getInstEmbeddings_function (T : IR2VecTool) (F : Function)
  : AggregationError + list (string * FloatEmbedding) :=
  withVocabulary T (fun V =>
    keyed (instructionKey env) (fembedInstruction V)
          (flat_map instructions (blocks F))).

(** One result per function of the module, gathered in module order. *)
Fixpoint perFunction {A : Type} (f : Function -> AggregationError + list A)
         (Fs : list Function) : AggregationError + list A :=
  match Fs with
  | [] => inr []
  | F :: rest =>
      match f F, perFunction f rest with
      | inl e, _ => inl e
      | _, inl e => inl e
      | inr xs, inr ys => inr (xs ++ ys)
      end
  end.

(** Functions with a body. *)
Definition definedFunctions (Mod : Module) : list Function :=
  filter (fun F => negb (isDeclaration F)) (functions Mod).

(** Modelled from the spec: [IR2VecTool::getFunctionEmbeddings], declared
    in the header, body missing.  The map is given as the sequence of the
    entries made for it, one per function with a body. *)
Definition getFunctionEmbeddings (T : IR2VecTool)
  : AggregationError + list (string * (string * FloatEmbedding)) :=
  perFunction (fun F => match getFunctionEmbedding T F with
                        | inl e => inl e
                        | inr x => inr [x]
                        end)
              (definedFunctions (getModule T)).

(** Modelled from the spec: [IR2VecTool::getBBEmbeddings()], declared in the
    header, body missing. *)
Definition getBBEmbeddings (T : IR2VecTool)
  : AggregationError + list (string * FloatEmbedding) :=
  perFunction (getBBEmbeddings_function T) (definedFunctions (getModule T)).

(** Modelled from the spec: [IR2VecTool::getInstEmbeddings()], declared in
    the header, body missing. *)
Definition getInstEmbeddings (T : IR2VecTool)
  : AggregationError + list (string * FloatEmbedding) :=
  perFunction (getInstEmbeddings_function T) (definedFunctions (getModule T)).

Definition onSuccess {A B : Type} (f : A -> B) (r : AggregationError + A)
  : AggregationError + B :=
  match r with
  | inl e => inl e
  | inr a => inr (f a)
  end.

(** [PyIR2VecTool::getFuncVectorMap] *)
Definition getFuncVectorMap (self : PyIR2VecTool)
  : AggregationError + list (string * (string * list float)) :=
  onSuccess toPyDict (getFunctionEmbeddings (Tool self)).

(** [PyIR2VecTool::generateBBEmbeddings] *)
Definition generateBBEmbeddings (self : PyIR2VecTool)
  : AggregationError + list (string * list float) :=
  onSuccess toPyList (getBBEmbeddings (Tool self)).

(** [PyIR2VecTool::generateInstEmbeddings] *)
Definition generateInstEmbeddings (self : PyIR2VecTool)
  : AggregationError + list (string * list float) :=
  onSuccess toPyList (getInstEmbeddings (Tool self)).

(** [PyIR2VecTool::generateTriplets] *)
Definition generateTriplets (self : PyIR2VecTool) : PyTripletDict :=
  toPyTripletDict (TripletExtractor.getTriplets (getModule (Tool self))).

End Bindings.

End IR2Vec.

(* ===================================================================== *)
(** * [mir2vec_bindings.cpp]                                              *)
(* ===================================================================== *)

Module MIR2Vec.

(** [PyMIR2VecTool]: its four members. *)
Record PyMIR2VecTool : Type := {
  Ctx : MIRContext;
  Tool : MIR2VecTool;
  Mode : string;
  VocabInitialized : bool
}.

(** A method runs on its object and on the process. *)
Definition St : Type := (PyMIR2VecTool * World)%type.

Definition self : M St PyMIR2VecTool := gets fst.

Definition inWorld {A : Type} (m : M World A) : M St A :=
  fun s => let (o, w) := m (snd s) in (o, (fst s, w)).

Definition setTool (T : MIR2VecTool) : M St unit :=
  modify (fun s => ({| Ctx := Ctx (fst s); Tool := T; Mode := Mode (fst s);
                       VocabInitialized := VocabInitialized (fst s) |}, snd s)).

Section Bindings.

Variable env : Env.

Definition fileNotValid (Filename : string) : bool :=
  negb (file_good env Filename).

(** Modelled from the spec: [setMIR2VecVocabPath] is declared in the binding
    and defined elsewhere; it overwrites the process-wide path. *)
Definition setMIR2VecVocabPath (Path : string) : M World unit :=
  modify (fun w => {| IR2VecVocabPath := IR2VecVocabPath w;
                      MIR2VecVocabPath := Path;
                      trace := trace w ++ [SetMIR2VecVocabPath Path] |}).

(** Modelled from the spec: [getMIR2VecVocabPath] is declared in the binding
    and defined elsewhere; it reads the process-wide path. *)
Definition getMIR2VecVocabPath : M World string := gets MIR2VecVocabPath.

(** [Tool->initializeVocabulary( *Ctx.M )]: the tool observes the
    process-wide path at the time of the call. *)
Definition Tool_initializeVocabulary : M St bool :=
  s <- self ;;
  Path <- inWorld getMIR2VecVocabPath ;;
  inWorld (emit (InitializedMIRVocabulary Path)) ;;
  let r := MIR_initializeVocabulary env Path (Ctx s) (Tool s) in
  setTool (snd r) ;;
  ret (fst r).

(** [Tool->initializeVocabularyForLayout( *Ctx.M )] *)
Definition Tool_initializeVocabularyForLayout : M St bool :=
  s <- self ;;
  inWorld (emit InitializedMIRVocabularyForLayout) ;;
  let r := MIR_initializeVocabularyForLayout env (Ctx s) (Tool s) in
  setTool (snd r) ;;
  ret (fst r).

Definition isNull {A : Type} (p : option A) : bool :=
  match p with
  | None => true
  | Some _ => false
  end.

(** The [assert]; the debug print that follows it changes nothing. *)
Definition verifyMIR2VecVocabulary : M St unit :=
  s <- self ;;
  when (assertionsEnabled env && isNull (getVocabulary (Tool s)))
       (abort "MIR2Vec vocabulary should be initialized at this point").

Definition initializeMIR2VecVocabularyForEmb (vocab_path : string) : M St unit :=
  inWorld (setMIR2VecVocabPath vocab_path) ;;
  ok <- Tool_initializeVocabulary ;;
  when (negb ok) (throw "Failed to initialize MIR2Vec vocabulary") ;;
  verifyMIR2VecVocabulary.

Definition getMachineFunction (FunctionName : string) : M St MachineFunction :=
  s <- self ;;
  match getFunction (CtxM (Ctx s)) FunctionName with
  | None => throw ("Function not found or is a declaration: " ++ FunctionName)
  | Some F =>
      if isDeclaration F
      then throw ("Function not found or is a declaration: " ++ FunctionName)
      else match MMI_getMachineFunction (Ctx s) F with
           | None => throw ("No MachineFunction found for: " ++ FunctionName)
           | Some MF => ret MF
           end
  end.

(** The template [generateEmbeddings]: the [throw] comes first, the rest of
    the body is written after it as in the source. *)
Definition generateEmbeddings (FunctionName vocab_path : string)
  (getEmbeddingsFn : MIR2VecTool -> MachineFunction -> list (string * FloatEmbedding))
  : M St (list (string * list float)) :=
  throw (A := unit) "Function Not Implemented" ;;
  initializeMIR2VecVocabularyForEmb vocab_path ;;
  MF <- getMachineFunction FunctionName ;;
  s <- self ;;
  inWorld (emit QueriedEmbeddings) ;;
  ret (toPyList (getEmbeddingsFn (Tool s) MF)).

(** The constructor [PyMIR2VecTool::PyMIR2VecTool]. *)
Definition PyMIR2VecTool_new (Filename Mode : string) : M World PyMIR2VecTool :=
  when (fileNotValid Filename) (throw "Invalid file path") ;;
  when (negb (Mode =? "sym"))
       (throw "Invalid mode. Only 'sym' mode supported.") ;;
  emit (SetUpMIRContext Filename) ;;
  match setupMIRContext env Filename with
  | inl Err => throw ("Failed to setup MIR context: " ++ Err)
  | inr C => ret {| Ctx := C; Tool := {| getVocabulary := None |};
                    Mode := Mode; VocabInitialized := false |}
  end.

(** The module-level [initEmbedding(filename, mode = "sym")]. *)
Definition initEmbedding (filename : string) (mode : option string)
  : M World PyMIR2VecTool :=
  PyMIR2VecTool_new filename (argOr "sym" mode).

Definition getEntityMappings : M St (list string) :=
  ok <- Tool_initializeVocabularyForLayout ;;
  when (negb ok) (throw "Failed to initialize MIR2Vec vocabulary") ;;
  verifyMIR2VecVocabulary ;;
  s <- self ;;
  inWorld (emit QueriedEntityMappings) ;;
  ret (MIR_getEntityMappings env (Tool s)).

Definition generateTriplets : M St PyTripletDict :=
  ok <- Tool_initializeVocabularyForLayout ;;
  when (negb ok) (throw "Failed to initialize MIR2Vec vocabulary") ;;
  verifyMIR2VecVocabulary ;;
  s <- self ;;
  inWorld (emit QueriedTriplets) ;;
  ret (toPyTripletDict (MIR_getTriplets env (Tool s) (CtxM (Ctx s)))).

(** [getFuncVectorMap(vocab_path = "")] *)
Definition getFuncVectorMap (vocab_path : option string)
  : M St (list (string * (string * list float))) :=
  throw (A := unit) "Function Not Implemented" ;;
  initializeMIR2VecVocabularyForEmb (argOr "" vocab_path) ;;
  s <- self ;;
  inWorld (emit QueriedEmbeddings) ;;
  ret (toPyDict (MIR_getFunctionEmbeddings env (Tool s) (CtxM (Ctx s)))).

(** [generateMBBEmbeddings(function_name, vocab_path = "")] *)
Definition generateMBBEmbeddings (FunctionName : string) (vocab_path : option string)
  : M St (list (string * list float)) :=
  generateEmbeddings FunctionName (argOr "" vocab_path) (MIR_getMBBEmbeddings env).

(** [generateMInstEmbeddings(function_name, vocab_path = "")] *)
Definition generateMInstEmbeddings (FunctionName : string) (vocab_path : option string)
  : M St (list (string * list float)) :=
  generateEmbeddings FunctionName (argOr "" vocab_path) (MIR_getMInstEmbeddings env).

(** What the layout-level initialization leaves in the session. *)
Definition afterLayout (s : St) : St :=
  ({| Ctx := Ctx (fst s);
      Tool := snd (MIR_initializeVocabularyForLayout env (Ctx (fst s)) (Tool (fst s)));
      Mode := Mode (fst s);
      VocabInitialized := VocabInitialized (fst s) |},
   {| IR2VecVocabPath := IR2VecVocabPath (snd s);
      MIR2VecVocabPath := MIR2VecVocabPath (snd s);
      trace := trace (snd s) ++ [InitializedMIRVocabularyForLayout] |}).

(** Layout initialization succeeds on a session: the tool answers [true],
    and the vocabulary the bindings then assert on is there (a build
    without assertions does not look). *)
Definition layoutInitializationSucceeds (self : PyMIR2VecTool) : Prop :=
  let r := MIR_initializeVocabularyForLayout env (Ctx self) (Tool self) in
  fst r = true /\
  (assertionsEnabled env = false \/ getVocabulary (snd r) <> None).


End Bindings.

End MIR2Vec.

(* ===================================================================== *)
(** * Concrete programs, collaborators and sessions                       *)
(* ===================================================================== *)

Module Examples.

Import EmbeddingAggregator.

(** [add %1, %2] then [ret %1] in the one block of [f]; entity 0 is the
    opcode of [add], 1 that of [ret], 2 a type, 3 a variable operand. *)
Definition addInst : Instruction :=
  {| opcodeEntity := 0%N; resultTypeEntity := Some 2%N; operandEntities := [3; 3]%N |}.

Definition retInst : Instruction :=
  {| opcodeEntity := 1%N; resultTypeEntity := None; operandEntities := [3]%N |}.

Definition entry : BasicBlock :=
  {| BBName := "entry"; instructions := [addInst; retInst] |}.

Definition f : Function := {| getName := "f"; blocks := [entry] |}.

(** A declaration: [declare i32 @g(i32)]. *)
Definition g : Function := {| getName := "g"; blocks := [] |}.

Definition testModule : Module := {| functions := [f; g] |}.

(** A vocabulary of dimension 2 over four entities. *)
Definition testVocabulary : FloatVocabulary :=
  {| dimension := 2;
     vectors := [[1; 2]; [3; 4]; [5; 6]; [7; 8]]%float;
     opcodeWeight := 1%float;
     typeWeight := 0.5%float;
     argWeight := 0.25%float |}.

Definition testMF : MachineFunction := {| MFName := "f"; MFBlocks := [entry] |}.

Definition testCtx : MIRContext :=
  {| CtxM := testModule;
     MMI_getMachineFunction :=
       fun F => if getName F =? "f" then Some testMF else None |}.

Definition layoutVocabulary : MIRVocabulary :=
  {| getDimension := 2; getCanonicalSize := 4 |}.

(** A process in which [test.ll] and [test.mir] are readable and well
    formed, and [vocab.json] holds the vocabulary above. *)
Definition testEnv : Env :=
  {| file_good := fun Filename => (Filename =? "test.ll") || (Filename =? "test.mir");
     parseIRFile := fun Filename =>
       if Filename =? "test.ll" then Some testModule else None;
     IR_loadVocabulary := fun Path _ =>
       if Path =? "vocab.json" then Some testVocabulary else None;
     setupMIRContext := fun Filename =>
       if Filename =? "test.mir" then inr testCtx else inl "cannot open file";
     MIR_initializeVocabulary := fun Path _ T =>
       if Path =? "vocab.json"
       then (true, {| getVocabulary := Some layoutVocabulary |})
       else (false, T);
     MIR_initializeVocabularyForLayout := fun _ _ =>
       (true, {| getVocabulary := Some layoutVocabulary |});
     MIR_getEntityMappings := fun _ => ["ADD"; "RET"; "GPR"; "IMM"];
     MIR_getTriplets := fun _ Mod => TripletExtractor.getTriplets Mod;
     MIR_getFunctionEmbeddings := fun _ _ => [];
     MIR_getMBBEmbeddings := fun _ _ => [];
     MIR_getMInstEmbeddings := fun _ _ => [];
     demangle := fun Name => Name;
     instructionKey := fun Inst => "inst";
     assertionsEnabled := true |}.

Definition world0 : World :=
  {| IR2VecVocabPath := ""; MIR2VecVocabPath := ""; trace := [] |}.

(** The machine-level session [initEmbedding("test.mir")] returns. *)
Definition mirSession : MIR2Vec.PyMIR2VecTool :=
  {| MIR2Vec.Ctx := testCtx;
     MIR2Vec.Tool := {| getVocabulary := None |};
     MIR2Vec.Mode := "sym";
     MIR2Vec.VocabInitialized := false |}.

(** The portable-IR session [initEmbedding("test.ll", "sym", "vocab.json")]
    returns. *)
Definition irSession : IR2Vec.PyIR2VecTool :=
  {| IR2Vec.PyM := testModule;
     IR2Vec.Tool := {| IR2Vec.getModule := testModule;
                       IR2Vec.Vocab := Some testVocabulary |} |}.

(** Three one-instruction blocks without operands or result type, and a
    one-dimensional vocabulary whose vectors differ widely in magnitude. *)
Definition opOnly (o : EntityId) : Instruction :=
  {| opcodeEntity := o; resultTypeEntity := None; operandEntities := [] |}.

Definition blockA : BasicBlock := {| BBName := "a"; instructions := [opOnly 0%N] |}.
Definition blockC : BasicBlock := {| BBName := "c"; instructions := [opOnly 2%N] |}.



(** A module whose only instruction has neither operands nor a result
    type. *)
Definition bareModule : Module :=
  {| functions := [ {| getName := "h"; blocks := [blockA] |} ] |}.

(** [f]'s block followed by a second block: two blocks in one function. *)
Definition twoBlockModule : Module :=
  {| functions := [ {| getName := "f"; blocks := [entry; blockC] |} ] |}.


End Examples.

(* ===================================================================== *)
(** * Notions used in the statements                                      *)
(* ===================================================================== *)

(** A sequence of calls of a path setter, in order. *)
Fixpoint setPaths (set : string -> M World unit) (Paths : list string) : M World unit :=
  match Paths with
  | [] => ret tt
  | Path :: rest => set Path ;; setPaths set rest
  end.

(** The process after the constructor of the portable-IR session parsed
    [Filename]. *)
Definition afterParse (Filename : string) (w : World) : World :=
  {| IR2VecVocabPath := IR2VecVocabPath w;
     MIR2VecVocabPath := MIR2VecVocabPath w;
     trace := trace w ++ [ParsedIRFile Filename] |}.

(** The process after that constructor went on to set the path and to
    initialize the vocabulary. *)
Definition afterInitialization (Filename VocabOverride : string) (w : World) : World :=
  {| IR2VecVocabPath := VocabOverride;
     MIR2VecVocabPath := MIR2VecVocabPath w;
     trace := trace w ++ [ParsedIRFile Filename;
                          SetIR2VecVocabPath VocabOverride;
                          InitializedVocabulary VocabOverride] |}.

(** The events a call adds to the log. *)
Definition addedEvents (before after : World) (evs : list Event) : Prop :=
  trace after = trace before ++ evs.

(** A module has no operands anywhere. *)
Definition noOperands (Mod : Module) : Prop :=
  forall F B Inst,
    In F (functions Mod) -> In B (blocks F) -> In Inst (instructions B) ->
    operandEntities Inst = [].

(** Every entity of the instruction has a slot in the vocabulary. *)
Definition inCatalog {R : Type} (V : EmbeddingAggregator.Vocabulary R)
           (Inst : Instruction) : Prop :=
  (N.to_nat (opcodeEntity Inst) < EmbeddingAggregator.canonicalSize V) /\
  (forall T, resultTypeEntity Inst = Some T ->
             N.to_nat T < EmbeddingAggregator.canonicalSize V) /\
  (forall P, In P (operandEntities Inst) ->
             N.to_nat P < EmbeddingAggregator.canonicalSize V).

(* ===================================================================== *)
(** * Properties of the machine-level session                             *)
(* ===================================================================== *)

Section MachineLevelSession.

Import MIR2Vec.

Variable env : Env.

(** A throw as the first statement decides the call, whatever follows. *)
Lemma throw_first {S A B : Type} (what : string) (k : A -> M S B) (s : S) :
  bind (throw what) k s = (Thrown what, s).
Proof. reflexivity. Qed.

Lemma generateEmbeddings_throws FunctionName vocab_path getEmbeddingsFn (s : St) :
  generateEmbeddings env FunctionName vocab_path getEmbeddingsFn s
  = (Thrown "Function Not Implemented", s).
Proof. unfold generateEmbeddings. apply throw_first. Qed.

Lemma layout_then_verify (s : St) :
  layoutInitializationSucceeds env (fst s) ->
  bind (Tool_initializeVocabularyForLayout env)
       (fun ok => when (negb ok) (throw "Failed to initialize MIR2Vec vocabulary") ;;
                  verifyMIR2VecVocabulary env) s
  = (Returned tt, afterLayout env s).
Proof.
  destruct s as [py w]. unfold layoutInitializationSucceeds, afterLayout. simpl.
  intros [Hok Hvoc].
  cbv [bind Tool_initializeVocabularyForLayout verifyMIR2VecVocabulary
       self inWorld emit setTool modify gets ret when throw abort fst snd].
  destruct (MIR_initializeVocabularyForLayout env (Ctx py) (Tool py)) as [ok T'].
  simpl in Hok, Hvoc. subst ok. cbn.
  destruct Hvoc as [Hoff | Hsome].
  - rewrite Hoff. reflexivity.
  - destruct (getVocabulary T') as [v |]; [| congruence].
    destruct (assertionsEnabled env); reflexivity.
Qed.

(** C1.  On every machine-level session and for every function name and
    vocabulary path, given or left to its default, [getFuncVectorMap],
    [generateMBBEmbeddings] and [generateMInstEmbeddings] throw
    "Function Not Implemented" (an [UnsupportedCapability] failure) and
    leave the session and the process exactly as they were: no path is set,
    no vocabulary is initialized, no function is looked up.
    [generateTriplets] and [getEntityMappings] are not guarded this way: when the
    layout-level initialization succeeds they return the tool's triplets and
    entity names after that initialization. *)
Theorem C1_machine_embeddings_not_implemented :
  forall (s : St) (FunctionName : string) (vocab_path : option string),
    (getFuncVectorMap env vocab_path s = (Thrown "Function Not Implemented", s) /\
     generateMBBEmbeddings env FunctionName vocab_path s
       = (Thrown "Function Not Implemented", s) /\
     generateMInstEmbeddings env FunctionName vocab_path s
       = (Thrown "Function Not Implemented", s)) /\
    kindOf "Function Not Implemented" = Some UnsupportedCapability /\
    (layoutInitializationSucceeds env (fst s) ->
     let T' := snd (MIR_initializeVocabularyForLayout env (Ctx (fst s)) (Tool (fst s))) in
     fst (generateTriplets env s)
       = Returned (toPyTripletDict (MIR_getTriplets env T' (CtxM (Ctx (fst s))))) /\
     fst (getEntityMappings env s) = Returned (MIR_getEntityMappings env T')).
Proof.
  intros s FunctionName vocab_path. split; [| split].
  - split; [| split].
    + unfold getFuncVectorMap. apply throw_first.
    + apply generateEmbeddings_throws.
    + apply generateEmbeddings_throws.
  - reflexivity.
  - intros Hlayout T'. pose proof (layout_then_verify s Hlayout) as Hrun.
    unfold bind in Hrun.
    split.
    + unfold generateTriplets, bind.
      destruct (Tool_initializeVocabularyForLayout env s) as [[ok | w | a] s1];
        try discriminate.
      simpl in Hrun. unfold bind in Hrun.
      destruct (when (negb ok) (throw "Failed to initialize MIR2Vec vocabulary") s1)
        as [[[] | w | a] s2]; try discriminate.
      destruct (verifyMIR2VecVocabulary env s2) as [[[] | w | a] s3]; try discriminate.
      injection Hrun as Hs3. subst s3. reflexivity.
    + unfold getEntityMappings, bind.
      destruct (Tool_initializeVocabularyForLayout env s) as [[ok | w | a] s1];
        try discriminate.
      simpl in Hrun. unfold bind in Hrun.
      destruct (when (negb ok) (throw "Failed to initialize MIR2Vec vocabulary") s1)
        as [[[] | w | a] s2]; try discriminate.
      destruct (verifyMIR2VecVocabulary env s2) as [[[] | w | a] s3]; try discriminate.
      injection Hrun as Hs3. subst s3. reflexivity.
Qed.

End MachineLevelSession.

(** The session of the examples passes the layout-level initialization, and
    its triplets and entity names are then returned. *)
Lemma C1_machine_embeddings_witness :
  MIR2Vec.layoutInitializationSucceeds Examples.testEnv Examples.mirSession /\
  succeeded (fst (MIR2Vec.generateTriplets Examples.testEnv
                    (Examples.mirSession, Examples.world0))) = true /\
  fst (MIR2Vec.getEntityMappings Examples.testEnv (Examples.mirSession, Examples.world0))
    = Returned ["ADD"; "RET"; "GPR"; "IMM"].
Proof.
  assert (Hlayout : MIR2Vec.layoutInitializationSucceeds
                      Examples.testEnv Examples.mirSession).
  { split; [reflexivity | right; discriminate]. }
  split; [exact Hlayout |].
  destruct (C1_machine_embeddings_not_implemented Examples.testEnv
              (Examples.mirSession, Examples.world0) "f" None)
    as (_ & _ & Hopen).
  destruct (Hopen Hlayout) as [Htriplets Hentities].
  split.
  - rewrite Htriplets. reflexivity.
  - rewrite Hentities. reflexivity.
Defined.

Section MachineLevelLookup.

Import MIR2Vec.

Variable env : Env.







End MachineLevelLookup.



(* ===================================================================== *)
(** * Properties of session construction                                  *)
(* ===================================================================== *)

Section SessionConstruction.

Variable env : Env.

(** The constructor of the portable-IR session, check by check. *)
Lemma PyIR2VecTool_new_unfold (Filename Mode VocabOverride : string) (w : World) :
  IR2Vec.PyIR2VecTool_new env Filename Mode VocabOverride w =
  if IR2Vec.fileNotValid env Filename then (Thrown "Invalid file path", w)
  else if negb (Mode =? "sym") && negb (Mode =? "fa")
  then (Thrown "Invalid mode. Use 'sym' or 'fa'", w)
  else match parseIRFile env Filename with
       | None => (Thrown "Failed to parse IR file.", afterParse Filename w)
       | Some Mod =>
           if VocabOverride =? ""
           then (Thrown "Error - Empty Vocab Path not allowed", afterParse Filename w)
           else match IR_loadVocabulary env VocabOverride Mod with
                | Some V =>
                    (Returned {| IR2Vec.PyM := Mod;
                                 IR2Vec.Tool := {| IR2Vec.getModule := Mod;
                                                   IR2Vec.Vocab := Some V |} |},
                     afterInitialization Filename VocabOverride w)
                | None =>
                    (Thrown "Failed to initialize IR2Vec vocabulary",
                     afterInitialization Filename VocabOverride w)
                end
       end.
Proof.
  unfold IR2Vec.PyIR2VecTool_new, afterParse, afterInitialization.
  cbv [bind when ret throw IR2Vec.getLLVMIR emit modify gets
       IR2Vec.setIR2VecVocabPath IR2Vec.initializeVocabulary
       IR2Vec.getIR2VecVocabPath IR2Vec.IR2VecTool_new].
  destruct (IR2Vec.fileNotValid env Filename); [reflexivity |].
  destruct (negb (Mode =? "sym") && negb (Mode =? "fa")); [reflexivity |].
  destruct (parseIRFile env Filename) as [Mod |]; [| reflexivity].
  destruct (VocabOverride =? ""); [reflexivity |].
  cbn.
  destruct (IR_loadVocabulary env VocabOverride Mod) as [V |];
    cbn; rewrite <- !app_assoc; reflexivity.
Qed.

(** The constructor of the machine-level session, check by check. *)
Lemma PyMIR2VecTool_new_unfold (Filename Mode : string) (w : World) :
  MIR2Vec.PyMIR2VecTool_new env Filename Mode w =
  if MIR2Vec.fileNotValid env Filename then (Thrown "Invalid file path", w)
  else if negb (Mode =? "sym")
  then (Thrown "Invalid mode. Only 'sym' mode supported.", w)
  else let w' := {| IR2VecVocabPath := IR2VecVocabPath w;
                    MIR2VecVocabPath := MIR2VecVocabPath w;
                    trace := trace w ++ [SetUpMIRContext Filename] |} in
       match setupMIRContext env Filename with
       | inl Err => (Thrown ("Failed to setup MIR context: " ++ Err), w')
       | inr C => (Returned {| MIR2Vec.Ctx := C;
                               MIR2Vec.Tool := {| getVocabulary := None |};
                               MIR2Vec.Mode := Mode;
                               MIR2Vec.VocabInitialized := false |}, w')
       end.
Proof.
  unfold MIR2Vec.PyMIR2VecTool_new.
  cbv [bind when ret throw emit modify].
  destruct (MIR2Vec.fileNotValid env Filename); [reflexivity |].
  destruct (negb (Mode =? "sym")); [reflexivity |].
  destruct (setupMIRContext env Filename); reflexivity.
Qed.

(** With an empty vocabulary path the constructor of the portable-IR
    session throws, having at most parsed the file. *)
Lemma empty_vocab_path_throws (Filename Mode : string) (w : World) :
  exists what w',
    IR2Vec.PyIR2VecTool_new env Filename Mode "" w = (Thrown what, w') /\
    (w' = w \/ w' = afterParse Filename w) /\
    (file_good env Filename = true ->
     Mode = "sym" \/ Mode = "fa" ->
     parseIRFile env Filename <> None ->
     what = "Error - Empty Vocab Path not allowed").
Proof.
  rewrite PyIR2VecTool_new_unfold. unfold IR2Vec.fileNotValid.
  destruct (file_good env Filename) eqn:Hgood; simpl.
  2:{ exists "Invalid file path", w. repeat split; auto. discriminate. }
  destruct (negb (Mode =? "sym") && negb (Mode =? "fa")) eqn:Hmode.
  { exists "Invalid mode. Use 'sym' or 'fa'", w. split; [reflexivity |].
    split; [auto |]. intros _ [-> | ->] _; discriminate Hmode. }
  destruct (parseIRFile env Filename) as [Mod |].
  - exists "Error - Empty Vocab Path not allowed", (afterParse Filename w).
    repeat split; auto.
  - exists "Failed to parse IR file.", (afterParse Filename w).
    split; [reflexivity |]. split; [auto |]. intros _ _ Hp. contradiction.
Qed.

End SessionConstruction.

(** C5, as amended.  Constructing a portable-IR session with an empty
    vocabulary path always throws, and by then the process-wide path has not
    been set and no vocabulary has been initialized: the only thing that may
    have happened is the parse of the file.  The failure is the
    configuration error "Error - Empty Vocab Path not allowed" when the
    checks that come first pass: the file is readable, the mode is ['sym']
    or ['fa'], and the file parses. *)
Theorem C5_empty_vocab_path :
  forall (env : Env) (Filename Mode : string) (w : World),
  exists what w',
    IR2Vec.PyIR2VecTool_new env Filename Mode "" w = (Thrown what, w') /\
    IR2VecVocabPath w' = IR2VecVocabPath w /\
    (trace w' = trace w \/ trace w' = trace w ++ [ParsedIRFile Filename]) /\
    (file_good env Filename = true ->
     Mode = "sym" \/ Mode = "fa" ->
     parseIRFile env Filename <> None ->
     what = "Error - Empty Vocab Path not allowed" /\
     kindOf what = Some ConfigurationError).
Proof.
  intros env Filename Mode w.
  destruct (empty_vocab_path_throws env Filename Mode w)
    as (what & w' & Hrun & Hworld & Hwhat).
  exists what, w'. split; [exact Hrun |].
  split; [destruct Hworld as [-> | ->]; reflexivity |].
  split; [destruct Hworld as [-> | ->]; [left | right]; reflexivity |].
  intros Hgood Hmode Hparse.
  rewrite (Hwhat Hgood Hmode Hparse). split; reflexivity.
Qed.

(** [test.ll] is readable and parses: with mode ['sym'] and an empty
    vocabulary path the constructor reports the empty path. *)
Lemma C5_empty_vocab_path_witness :
  fst (IR2Vec.PyIR2VecTool_new Examples.testEnv "test.ll" "sym" "" Examples.world0)
    = Thrown "Error - Empty Vocab Path not allowed".
Proof.
  destruct (C5_empty_vocab_path Examples.testEnv "test.ll" "sym" Examples.world0)
    as (what & w' & Hrun & _ & _ & Hwhat).
  rewrite Hrun. simpl.
  destruct (Hwhat eq_refl (or_introl eq_refl)) as [-> _]; [discriminate | reflexivity].
Defined.

(** C5 as stated fails: with an empty vocabulary path and a file that
    cannot be read, the constructor throws "Invalid file path", an input
    error and not a configuration error. *)
Lemma C5_counterexample :
  fst (IR2Vec.PyIR2VecTool_new Examples.testEnv "missing.ll" "sym" "" Examples.world0)
    = Thrown "Invalid file path" /\
  failureKind (fst (IR2Vec.PyIR2VecTool_new Examples.testEnv "missing.ll" "sym" ""
                      Examples.world0)) = Some InputError /\
  failureKind (fst (IR2Vec.PyIR2VecTool_new Examples.testEnv "missing.ll" "sym" ""
                      Examples.world0)) <> Some ConfigurationError.
Proof.
  split; [reflexivity |]. split; [reflexivity | discriminate].
Qed.

(** C10.  A call of the portable-IR [initEmbedding] that leaves out
    [vocab_override] fails, whatever the file and the mode: the default is
    the empty string, which the constructor rejects when no earlier check
    has thrown already.  Neither the process-wide path nor a vocabulary is
    touched. *)
Theorem C10_initEmbedding_default_vocab_fails :
  forall (env : Env) (filename : string) (mode : option string) (w : World),
    argOr "" None = "" /\
    failed (fst (IR2Vec.initEmbedding env filename mode None w)) = true /\
    exists what w',
      IR2Vec.initEmbedding env filename mode None w = (Thrown what, w') /\
      IR2VecVocabPath w' = IR2VecVocabPath w /\
      (trace w' = trace w \/ trace w' = trace w ++ [ParsedIRFile filename]).
Proof.
  intros env filename mode w. split; [reflexivity |].
  unfold IR2Vec.initEmbedding. simpl (argOr "" None).
  destruct (empty_vocab_path_throws env filename (argOr "sym" mode) w)
    as (what & w' & Hrun & Hworld & _).
  split.
  - rewrite Hrun. reflexivity.
  - exists what, w'. split; [exact Hrun |].
    split; destruct Hworld as [-> | ->]; auto.
Qed.

(** C2, as amended.  On the machine-level path every construction request
    with mode ['fa'] throws and leaves the process untouched: "Invalid file
    path" when the file cannot be read, and otherwise the mode error
    "Invalid mode. Only 'sym' mode supported.".  On the portable-IR path the
    mode ['fa'] passes the mode check: the constructor does with ['fa']
    exactly what it does with ['sym'], and never reports the mode. *)
Theorem C2_flow_aware_mode :
  forall (env : Env) (Filename : string) (w : World),
    (exists what,
        MIR2Vec.PyMIR2VecTool_new env Filename "fa" w = (Thrown what, w) /\
        what = (if file_good env Filename
                then "Invalid mode. Only 'sym' mode supported."
                else "Invalid file path") /\
        (file_good env Filename = true -> kindOf what = Some UnsupportedMode)) /\
    (forall VocabOverride : string,
        IR2Vec.PyIR2VecTool_new env Filename "fa" VocabOverride w
        = IR2Vec.PyIR2VecTool_new env Filename "sym" VocabOverride w /\
        fst (IR2Vec.PyIR2VecTool_new env Filename "fa" VocabOverride w)
        <> Thrown "Invalid mode. Use 'sym' or 'fa'").
Proof.
  intros env Filename w. split.
  - rewrite PyMIR2VecTool_new_unfold. unfold MIR2Vec.fileNotValid.
    destruct (file_good env Filename); simpl.
    + eexists. split; [reflexivity |]. split; reflexivity.
    + eexists. split; [reflexivity |]. split; [reflexivity | discriminate].
  - intros VocabOverride. split.
    + rewrite !PyIR2VecTool_new_unfold. reflexivity.
    + rewrite PyIR2VecTool_new_unfold.
      destruct (IR2Vec.fileNotValid env Filename); [discriminate |].
      simpl.
      destruct (parseIRFile env Filename) as [Mod |]; [| discriminate].
      destruct (VocabOverride =? ""); [discriminate |].
      destruct (IR_loadVocabulary env VocabOverride Mod); discriminate.
Qed.

(** [test.mir] is readable: the machine-level constructor rejects the mode
    ['fa'] there with the mode error. *)
Lemma C2_flow_aware_mode_witness :
  failureKind (fst (MIR2Vec.PyMIR2VecTool_new Examples.testEnv "test.mir" "fa"
                      Examples.world0)) = Some UnsupportedMode.
Proof.
  destruct (C2_flow_aware_mode Examples.testEnv "test.mir" Examples.world0)
    as [(what & Hrun & _ & Hkind) _].
  rewrite Hrun. simpl. apply Hkind. reflexivity.
Defined.

(** C2 as stated fails: a portable-IR session requested with mode ['fa'],
    a readable file and a usable vocabulary is constructed. *)
Lemma C2_counterexample :
  fst (IR2Vec.PyIR2VecTool_new Examples.testEnv "test.ll" "fa" "vocab.json"
         Examples.world0) = Returned Examples.irSession /\
  failed (fst (IR2Vec.initEmbedding Examples.testEnv "test.ll" (Some "fa")
                 (Some "vocab.json") Examples.world0)) = false.
Proof.
  split; reflexivity.
Qed.

(* ===================================================================== *)
(** * The process-wide vocabulary path                                    *)
(* ===================================================================== *)

Section VocabularyPath.

Variable env : Env.

(** The last element of a list that has one does not depend on the
    default. *)
Lemma last_nonempty (q : string) (rest : list string) (d d' : string) :
  last (q :: rest) d = last (q :: rest) d'.
Proof.
  revert q. induction rest as [| q' rest IH]; intros q; [reflexivity |].
  change (last (q' :: rest) d = last (q' :: rest) d'). apply IH.
Qed.

(** What a run of setters leaves in the process. *)
Lemma setPaths_IR (Paths : list string) (w : World) :
  setPaths IR2Vec.setIR2VecVocabPath Paths w =
  (Returned tt,
   {| IR2VecVocabPath := last Paths (IR2VecVocabPath w);
      MIR2VecVocabPath := MIR2VecVocabPath w;
      trace := trace w ++ map SetIR2VecVocabPath Paths |}).
Proof.
  revert w. induction Paths as [| Path rest IH]; intros w.
  - simpl. rewrite app_nil_r. destruct w; reflexivity.
  - change (setPaths IR2Vec.setIR2VecVocabPath (Path :: rest) w)
      with (setPaths IR2Vec.setIR2VecVocabPath rest
              {| IR2VecVocabPath := Path;
                 MIR2VecVocabPath := MIR2VecVocabPath w;
                 trace := trace w ++ [SetIR2VecVocabPath Path] |}).
    rewrite IH. simpl. rewrite <- app_assoc. simpl.
    destruct rest as [| q rest']; [reflexivity |].
    rewrite (last_nonempty q rest' Path (IR2VecVocabPath w)). reflexivity.
Qed.

Lemma setPaths_MIR (Paths : list string) (w : World) :
  setPaths MIR2Vec.setMIR2VecVocabPath Paths w =
  (Returned tt,
   {| IR2VecVocabPath := IR2VecVocabPath w;
      MIR2VecVocabPath := last Paths (MIR2VecVocabPath w);
      trace := trace w ++ map SetMIR2VecVocabPath Paths |}).
Proof.
  revert w. induction Paths as [| Path rest IH]; intros w.
  - simpl. rewrite app_nil_r. destruct w; reflexivity.
  - change (setPaths MIR2Vec.setMIR2VecVocabPath (Path :: rest) w)
      with (setPaths MIR2Vec.setMIR2VecVocabPath rest
              {| IR2VecVocabPath := IR2VecVocabPath w;
                 MIR2VecVocabPath := Path;
                 trace := trace w ++ [SetMIR2VecVocabPath Path] |}).
    rewrite IH. simpl. rewrite <- app_assoc. simpl.
    destruct rest as [| q rest']; [reflexivity |].
    rewrite (last_nonempty q rest' Path (MIR2VecVocabPath w)). reflexivity.
Qed.

Lemma last_snoc (Paths : list string) (Path d : string) :
  last (Paths ++ [Path]) d = Path.
Proof.
  induction Paths as [| q rest IH]; [reflexivity |].
  simpl. destruct (rest ++ [Path]) eqn:E; [destruct rest; discriminate | exact IH].
Qed.

(** C9, as amended.  The vocabulary path is a cell of the process, written
    by the setters and read by the initialization.  After any run of
    set-path calls, a full initialization observes the path of the last
    call, on the portable-IR side and on the machine-level side alike.  In
    the bindings, each place that initializes the vocabulary sets the path
    just before, to the path it was given: the constructor of the
    portable-IR session adds no event, or the parse alone, or the parse, the
    set and the initialization at that path in this order; the machine-level
    [initializeMIR2VecVocabularyForEmb] adds the set and the initialization
    at that path.  The machine-level embedding requests throw before they
    reach that helper: they set no path and initialize nothing. *)
Theorem C9_vocab_path_is_process_wide :
  (forall (Paths : list string) (Path : string) (T : IR2Vec.IR2VecTool) (w : World),
      exists r w',
        (setPaths IR2Vec.setIR2VecVocabPath (Paths ++ [Path]) ;;
         IR2Vec.initializeVocabulary env T) w = (Returned r, w') /\
        IR2VecVocabPath w' = Path /\
        addedEvents w w' (map SetIR2VecVocabPath (Paths ++ [Path])
                            ++ [InitializedVocabulary Path]) /\
        IR2Vec.Vocab (snd r)
          = match IR_loadVocabulary env Path (IR2Vec.getModule T) with
            | Some V => Some V
            | None => IR2Vec.Vocab T
            end) /\
  (forall (Paths : list string) (Path : string) (s : MIR2Vec.St),
      exists w',
        (MIR2Vec.inWorld (setPaths MIR2Vec.setMIR2VecVocabPath (Paths ++ [Path])) ;;
         MIR2Vec.Tool_initializeVocabulary env) s
        = (Returned (fst (MIR_initializeVocabulary env Path (MIR2Vec.Ctx (fst s))
                            (MIR2Vec.Tool (fst s)))),
           ({| MIR2Vec.Ctx := MIR2Vec.Ctx (fst s);
               MIR2Vec.Tool := snd (MIR_initializeVocabulary env Path
                                      (MIR2Vec.Ctx (fst s)) (MIR2Vec.Tool (fst s)));
               MIR2Vec.Mode := MIR2Vec.Mode (fst s);
               MIR2Vec.VocabInitialized := MIR2Vec.VocabInitialized (fst s) |}, w')) /\
        MIR2VecVocabPath w' = Path /\
        addedEvents (snd s) w' (map SetMIR2VecVocabPath (Paths ++ [Path])
                                  ++ [InitializedMIRVocabulary Path])) /\
  (forall (Filename Mode VocabOverride : string) (w : World),
      let w' := snd (IR2Vec.PyIR2VecTool_new env Filename Mode VocabOverride w) in
      addedEvents w w' [] \/
      addedEvents w w' [ParsedIRFile Filename] \/
      (addedEvents w w' [ParsedIRFile Filename;
                         SetIR2VecVocabPath VocabOverride;
                         InitializedVocabulary VocabOverride] /\
       IR2VecVocabPath w' = VocabOverride)) /\
  (forall (vocab_path : string) (s : MIR2Vec.St),
      let w' := snd (snd (MIR2Vec.initializeMIR2VecVocabularyForEmb env vocab_path s)) in
      addedEvents (snd s) w' [SetMIR2VecVocabPath vocab_path;
                              InitializedMIRVocabulary vocab_path] /\
      MIR2VecVocabPath w' = vocab_path) /\
  (forall (FunctionName : string) (vocab_path : option string) (s : MIR2Vec.St),
      snd (MIR2Vec.getFuncVectorMap env vocab_path s) = s /\
      snd (MIR2Vec.generateMBBEmbeddings env FunctionName vocab_path s) = s /\
      snd (MIR2Vec.generateMInstEmbeddings env FunctionName vocab_path s) = s).
Proof.
  split; [| split; [| split; [| split]]].
  - intros Paths Path T w. unfold bind. rewrite setPaths_IR.
    unfold IR2Vec.initializeVocabulary, IR2Vec.getIR2VecVocabPath, bind, gets, emit,
      modify, ret. simpl. rewrite last_snoc.
    destruct (IR_loadVocabulary env Path (IR2Vec.getModule T)) as [V |];
      eexists; eexists; (split; [reflexivity |]); simpl;
      (split; [reflexivity |]); (split; [| reflexivity]);
      unfold addedEvents; simpl; rewrite <- app_assoc; reflexivity.
  - intros Paths Path [py w]. unfold bind, MIR2Vec.inWorld. simpl.
    rewrite setPaths_MIR.
    unfold MIR2Vec.Tool_initializeVocabulary, MIR2Vec.self, MIR2Vec.inWorld,
      MIR2Vec.getMIR2VecVocabPath, MIR2Vec.setTool, bind, gets, emit, modify, ret.
    simpl. rewrite last_snoc.
    eexists. split; [reflexivity |]. simpl. split; [reflexivity |].
    unfold addedEvents. simpl. rewrite <- app_assoc. reflexivity.
  - intros Filename Mode VocabOverride w. rewrite PyIR2VecTool_new_unfold.
    unfold addedEvents.
    destruct (IR2Vec.fileNotValid env Filename);
      [left; simpl; rewrite app_nil_r; reflexivity |].
    destruct (negb (Mode =? "sym") && negb (Mode =? "fa"));
      [left; simpl; rewrite app_nil_r; reflexivity |].
    destruct (parseIRFile env Filename) as [Mod |];
      [| right; left; reflexivity].
    destruct (VocabOverride =? ""); [right; left; reflexivity |].
    destruct (IR_loadVocabulary env VocabOverride Mod);
      right; right; split; reflexivity.
  - intros vocab_path [py w].
    unfold MIR2Vec.initializeMIR2VecVocabularyForEmb,
      MIR2Vec.Tool_initializeVocabulary, MIR2Vec.verifyMIR2VecVocabulary,
      MIR2Vec.self, MIR2Vec.inWorld, MIR2Vec.setMIR2VecVocabPath,
      MIR2Vec.getMIR2VecVocabPath, MIR2Vec.setTool, addedEvents,
      bind, gets, emit, modify, ret, when, throw, abort.
    simpl.
    destruct (MIR_initializeVocabulary env vocab_path (MIR2Vec.Ctx py) (MIR2Vec.Tool py))
      as [ok T']. simpl.
    destruct ok; simpl.
    + destruct (assertionsEnabled env && MIR2Vec.isNull (getVocabulary T')); simpl;
        rewrite <- app_assoc; split; reflexivity.
    + rewrite <- app_assoc. split; reflexivity.
  - intros FunctionName vocab_path s. repeat split.
Qed.

End VocabularyPath.

(** C9 as stated fails in its last part: the machine-level embedding
    requests, asked for embeddings under the path ["vocab.json"], leave the
    process-wide path as it was (empty here) and add no event: they neither
    set the path nor initialize. *)
Lemma C9_counterexample :
  MIR2VecVocabPath
    (snd (snd (MIR2Vec.getFuncVectorMap Examples.testEnv (Some "vocab.json")
                 (Examples.mirSession, Examples.world0)))) = "" /\
  trace
    (snd (snd (MIR2Vec.getFuncVectorMap Examples.testEnv (Some "vocab.json")
                 (Examples.mirSession, Examples.world0)))) = [] /\
  MIR2VecVocabPath
    (snd (snd (MIR2Vec.generateMBBEmbeddings Examples.testEnv "f" (Some "vocab.json")
                 (Examples.mirSession, Examples.world0)))) = "" /\
  trace
    (snd (snd (MIR2Vec.generateMInstEmbeddings Examples.testEnv "f" (Some "vocab.json")
                 (Examples.mirSession, Examples.world0)))) = [] /\
  ~ In (SetMIR2VecVocabPath "vocab.json")
       (trace (snd (snd (MIR2Vec.generateMBBEmbeddings Examples.testEnv "f"
                           (Some "vocab.json")
                           (Examples.mirSession, Examples.world0))))).
Proof.
  split; [reflexivity |]. split; [reflexivity |].
  split; [reflexivity |]. split; [reflexivity |].
  intros [].
Qed.

(* ===================================================================== *)
(** * Properties of triplet extraction                                    *)
(* ===================================================================== *)

Section TripletProperties.

Import TripletExtractor.

Lemma filter_flat_map {A B : Type} (p : B -> bool) (f : A -> list B) (l : list A) :
  filter p (flat_map f l) = flat_map (fun x => filter p (f x)) l.
Proof.
  induction l as [| x l IH]; [reflexivity |].
  simpl. rewrite filter_app, IH. reflexivity.
Qed.

Lemma map_flat_map' {A B C : Type} (g : B -> C) (f : A -> list B) (l : list A) :
  map g (flat_map f l) = flat_map (fun x => map g (f x)) l.
Proof.
  induction l as [| x l IH]; [reflexivity |].
  simpl. rewrite map_app, IH. reflexivity.
Qed.

Lemma flat_map_pointwise {A B : Type} (f g : A -> list B) (l : list A) :
  (forall x, In x l -> f x = g x) -> flat_map f l = flat_map g l.
Proof.
  induction l as [| x l IH]; intros Hfg; [reflexivity |].
  simpl. rewrite (Hfg x (or_introl eq_refl)), IH; [reflexivity |].
  intros y Hy. apply Hfg. right. exact Hy.
Qed.

(** No relation outside the three kinds is emitted for a block. *)
Lemma blockTriplets_relations (insts : list Instruction) :
  Forall (fun t => (Relation t <= 2)%N) (blockTriplets insts).
Proof.
  induction insts as [| Inst rest IH]; [constructor |].
  simpl. repeat (apply Forall_app; split).
  - unfold typeTriplets. destruct (resultTypeEntity Inst); repeat constructor.
    simpl. lia.
  - unfold nextTriplets. destruct rest; repeat constructor. simpl. lia.
  - unfold argTriplets. apply Forall_forall. intros t Ht.
    apply in_map_iff in Ht. destruct Ht as (P & <- & _). simpl. lia.
  - exact IH.
Qed.

Lemma functionTriplets_relations (F : Function) :
  Forall (fun t => (Relation t <= 2)%N) (functionTriplets F).
Proof.
  unfold functionTriplets. apply Forall_flat_map. apply Forall_forall.
  intros B _. apply blockTriplets_relations.
Qed.

Lemma filter_isArg_argTriplets (Inst : Instruction) :
  operandEntities Inst = [] -> filter isArg (argTriplets Inst) = [].
Proof. unfold argTriplets. intros ->. reflexivity. Qed.

Lemma filter_isArg_typeTriplets (Inst : Instruction) :
  filter isArg (typeTriplets Inst) = [].
Proof. unfold typeTriplets. destruct (resultTypeEntity Inst); reflexivity. Qed.

Lemma filter_isArg_nextTriplets (Inst : Instruction) (rest : list Instruction) :
  filter isArg (nextTriplets Inst rest) = [].
Proof. unfold nextTriplets. destruct rest; reflexivity. Qed.

(** A block without operands yields no [ArgRelation] triple. *)
Lemma blockTriplets_no_operands (insts : list Instruction) :
  (forall Inst, In Inst insts -> operandEntities Inst = []) ->
  filter isArg (blockTriplets insts) = [].
Proof.
  induction insts as [| Inst rest IH]; intros Hno; [reflexivity |].
  simpl. rewrite !filter_app.
  rewrite filter_isArg_typeTriplets, filter_isArg_nextTriplets.
  rewrite filter_isArg_argTriplets by (apply Hno; left; reflexivity).
  simpl. apply IH. intros Inst' Hin. apply Hno. right. exact Hin.
Qed.

Lemma flat_map_nil {A B : Type} (f : A -> list B) (l : list A) :
  (forall x, In x l -> f x = []) -> flat_map f l = [].
Proof.
  induction l as [| x l IH]; intros Hf; [reflexivity |].
  simpl. rewrite (Hf x (or_introl eq_refl)). simpl.
  apply IH. intros y Hy. apply Hf. right. exact Hy.
Qed.

(** The walk over [add %1, %2; ret %1]: the type of [add], the step from
    [add] to [ret], and one [ArgRelation] triple per operand. *)
Example blockTriplets_entry :
  blockTriplets (instructions Examples.entry)
  = [ {| Head := 0; Tail := 2; Relation := 0 |};
      {| Head := 0; Tail := 1; Relation := 1 |};
      {| Head := 3; Tail := 0; Relation := 2 |};
      {| Head := 3; Tail := 0; Relation := 2 |};
      {| Head := 3; Tail := 1; Relation := 2 |} ]%N.
Proof. reflexivity. Qed.

(** C3.  For every module and for every single function, [MaxRelation] of
    the triplet result is 2, the largest of the three relation kinds
    ([TypeRelation] = 0, [NextRelation] = 1, [ArgRelation] = 2), and so is
    the [max_relation] entry the portable-IR binding returns; every emitted
    triple has a relation within that bound; and a module without operands
    yields no [ArgRelation] triple while its [MaxRelation] is still 2. *)
Theorem C3_max_relation_is_two :
  forall Mod : Module,
    MaxRelation (getTriplets Mod) = 2%N /\
    (forall F : Function, MaxRelation (getTriplets_function F) = 2%N) /\
    (forall self : IR2Vec.PyIR2VecTool,
        max_relation (IR2Vec.generateTriplets self) = 2%N) /\
    Forall (fun t => (Relation t <= MaxRelation (getTriplets Mod))%N)
           (Triplets (getTriplets Mod)) /\
    (noOperands Mod ->
     filter isArg (Triplets (getTriplets Mod)) = [] /\
     MaxRelation (getTriplets Mod) = 2%N).
Proof.
  intros Mod. split; [reflexivity |]. split; [reflexivity |].
  split; [reflexivity |]. split.
  - simpl. apply Forall_flat_map. apply Forall_forall.
    intros F _. apply functionTriplets_relations.
  - intros Hno. split; [| reflexivity].
    simpl. rewrite filter_flat_map. apply flat_map_nil. intros F HF.
    unfold functionTriplets. rewrite filter_flat_map. apply flat_map_nil.
    intros B HB. apply blockTriplets_no_operands.
    intros Inst HI. exact (Hno F B Inst HF HB HI).
Qed.

End TripletProperties.

(** The one instruction of [bareModule] has no operand: no [ArgRelation]
    triple is emitted for it, and [MaxRelation] is 2. *)
Lemma C3_max_relation_witness :
  noOperands Examples.bareModule /\
  filter TripletExtractor.isArg
         (Triplets (TripletExtractor.getTriplets Examples.bareModule)) = [] /\
  MaxRelation (TripletExtractor.getTriplets Examples.bareModule) = 2%N.
Proof.
  assert (Hno : noOperands Examples.bareModule).
  { intros F B Inst [<- | []] [<- | []] [<- | []]. reflexivity. }
  split; [exact Hno |].
  destruct (C3_max_relation_is_two Examples.bareModule) as (_ & _ & _ & _ & Hbare).
  exact (Hbare Hno).
Defined.

Section NextStaysInBlock.

Import TripletExtractor.

Lemma filter_isNext_typeTriplets (Inst : Instruction) :
  filter isNext (typeTriplets Inst) = [].
Proof. unfold typeTriplets. destruct (resultTypeEntity Inst); reflexivity. Qed.

Lemma filter_isNext_nextTriplets (Inst : Instruction) (rest : list Instruction) :
  filter isNext (nextTriplets Inst rest) = nextTriplets Inst rest.
Proof. unfold nextTriplets. destruct rest; reflexivity. Qed.

Lemma filter_isNext_argTriplets (Inst : Instruction) :
  filter isNext (argTriplets Inst) = [].
Proof.
  unfold argTriplets. induction (operandEntities Inst) as [| P ops IH];
    [reflexivity | exact IH].
Qed.

(** The [NextRelation] triples of a block are its successor pairs, in
    order. *)
Lemma next_of_block (insts : list Instruction) :
  map pairOf (filter isNext (blockTriplets insts)) = adjacentOpcodes insts.
Proof.
  induction insts as [| Inst rest IH]; [reflexivity |].
  simpl blockTriplets. rewrite !filter_app.
  rewrite filter_isNext_typeTriplets, filter_isNext_nextTriplets,
    filter_isNext_argTriplets.
  simpl. rewrite map_app, IH.
  destruct rest as [| Inst' rest']; reflexivity.
Qed.

(** A [NextRelation] triple of a block relates two instructions that
    follow each other in it. *)
Lemma next_in_block (insts : list Instruction) (t : Triplet) :
  In t (blockTriplets insts) -> isNext t = true ->
  exists pre Inst Inst' post,
    insts = pre ++ Inst :: Inst' :: post /\
    Head t = opcodeEntity Inst /\ Tail t = opcodeEntity Inst'.
Proof.
  induction insts as [| Inst rest IH]; intros Hin Hnext; [contradiction |].
  simpl in Hin. rewrite !in_app_iff in Hin.
  destruct Hin as [Htype | [Hnx | [Harg | Hrest]]].
  - unfold typeTriplets in Htype.
    destruct (resultTypeEntity Inst); [| contradiction].
    destruct Htype as [<- | []]. discriminate Hnext.
  - unfold nextTriplets in Hnx. destruct rest as [| Inst' rest']; [contradiction |].
    destruct Hnx as [<- | []].
    exists [], Inst, Inst', rest'. repeat split.
  - unfold argTriplets in Harg. apply in_map_iff in Harg.
    destruct Harg as (P & <- & _). discriminate Hnext.
  - destruct (IH Hrest Hnext) as (pre & J & J' & post & -> & Hh & Ht).
    exists (Inst :: pre), J, J', post. repeat split; assumption.
Qed.

(** C4.  The [NextRelation] triples of a module are exactly the pairs of
    opcode entities of instructions that follow each other inside one
    block, block after block: none relates the last instruction of a block
    to the first of another.  Every [NextRelation] triple in the result has
    as head and tail the opcode entities of two instructions one of which
    immediately follows the other in the same block of the same function. *)
Theorem C4_next_never_crosses_blocks :
  forall Mod : Module,
    map pairOf (filter isNext (Triplets (getTriplets Mod))) = inBlockSuccessors Mod /\
    (forall t : Triplet,
        In t (Triplets (getTriplets Mod)) ->
        Relation t = RelationType_value NextRelation ->
        exists Inst Inst',
          consecutiveIn Mod Inst Inst' /\
          Head t = opcodeEntity Inst /\ Tail t = opcodeEntity Inst').
Proof.
  intros Mod. split.
  - simpl. unfold inBlockSuccessors.
    rewrite filter_flat_map, map_flat_map'.
    apply flat_map_pointwise. intros F _. unfold functionTriplets.
    rewrite filter_flat_map, map_flat_map'.
    apply flat_map_pointwise. intros B _. apply next_of_block.
  - intros t Hin Hrel. simpl in Hin.
    apply in_flat_map in Hin. destruct Hin as (F & HF & Hin).
    unfold functionTriplets in Hin.
    apply in_flat_map in Hin. destruct Hin as (B & HB & Hin).
    assert (Hnext : isNext t = true).
    { unfold isNext. rewrite Hrel. reflexivity. }
    destruct (next_in_block (instructions B) t Hin Hnext)
      as (pre & Inst & Inst' & post & Hsplit & Hh & Ht).
    exists Inst, Inst'. split; [| split; assumption].
    exists F, B, pre, post. repeat split; assumption.
Qed.

End NextStaysInBlock.

(** A function of two blocks: the only [NextRelation] triple of the module
    comes from the two instructions of the first block; the step from
    [retInst] to the second block yields none. *)
Lemma C4_next_never_crosses_blocks_witness :
  map TripletExtractor.pairOf
      (filter TripletExtractor.isNext
              (Triplets (TripletExtractor.getTriplets Examples.twoBlockModule)))
    = [(0%N, 1%N)] /\
  exists Inst Inst',
    TripletExtractor.consecutiveIn Examples.twoBlockModule Inst Inst' /\
    opcodeEntity Inst = 0%N /\ opcodeEntity Inst' = 1%N.
Proof.
  destruct (C4_next_never_crosses_blocks Examples.twoBlockModule) as [Hexact Hprov].
  split; [rewrite Hexact; reflexivity |].
  destruct (Hprov {| Head := 0; Tail := 1; Relation := 1 |}%N) as (Inst & Inst' & Hc & Hh & Ht).
  - simpl. tauto.
  - reflexivity.
  - exists Inst, Inst'. split; [exact Hc |]. split; symmetry; assumption.
Defined.

(* ===================================================================== *)
(** * Properties of embedding aggregation                                 *)
(* ===================================================================== *)

Section AggregationProperties.

Import EmbeddingAggregator.

Variable R : Type.
Variable Rzero : R.
Variable Radd : R -> R -> R.
Variable Rmul : R -> R -> R.

Lemma length_addEmbedding (a b : Embedding R) :
  length (addEmbedding Radd a b) = Nat.min (length a) (length b).
Proof. unfold addEmbedding. rewrite length_map. apply length_combine. Qed.

Lemma length_scaleEmbedding (w : R) (a : Embedding R) :
  length (scaleEmbedding Rmul w a) = length a.
Proof. apply length_map. Qed.

Lemma length_zeroEmbedding (D : nat) : length (zeroEmbedding Rzero D) = D.
Proof. apply repeat_length. Qed.

Lemma entityVector_length (V : Vocabulary R) (w : R) (id : EntityId) (e : Embedding R) :
  wellFormed V -> entityVector Rmul V w id = inr e -> length e = dimension V.
Proof.
  unfold wellFormed, entityVector. intros Hwf Hlook.
  destruct (nth_error (vectors V) (N.to_nat id)) as [v |] eqn:Hnth; [| discriminate].
  injection Hlook as <-. rewrite length_scaleEmbedding.
  apply nth_error_In in Hnth. rewrite Forall_forall in Hwf. exact (Hwf v Hnth).
Qed.

(** Adding contributions of length [D] to an accumulator of length [D]
    keeps the length. *)
Lemma aggregate_length {X : Type} (embed : X -> AggregationError + Embedding R)
      (D : nat) (xs : list X) :
  (forall x v, In x xs -> embed x = inr v -> length v = D) ->
  forall acc e,
    length acc = D -> aggregate Radd embed acc xs = inr e -> length e = D.
Proof.
  induction xs as [| x rest IH]; intros Hembed acc e Hacc Hrun.
  - simpl in Hrun. injection Hrun as <-. exact Hacc.
  - simpl in Hrun. destruct (embed x) as [err | v] eqn:Hx; [discriminate |].
    apply (IH (fun y u Hy => Hembed y u (or_intror Hy)) (addEmbedding Radd acc v)).
    + rewrite length_addEmbedding, Hacc,
        (Hembed x v (or_introl eq_refl) Hx). apply Nat.min_id.
    + exact Hrun.
Qed.

(** The aggregation returns when every contribution does. *)
Lemma aggregate_returns {X : Type} (embed : X -> AggregationError + Embedding R)
      (xs : list X) :
  (forall x, In x xs -> exists v, embed x = inr v) ->
  forall acc, exists e, aggregate Radd embed acc xs = inr e.
Proof.
  induction xs as [| x rest IH]; intros Hembed acc.
  - exists acc. reflexivity.
  - simpl. destruct (Hembed x (or_introl eq_refl)) as [v ->].
    apply IH. intros y Hy. apply Hembed. right. exact Hy.
Qed.

Lemma keyed_lengths {X : Type} (key : X -> string)
      (embed : X -> AggregationError + Embedding R) (D : nat) (xs : list X) :
  (forall x v, In x xs -> embed x = inr v -> length v = D) ->
  forall l, keyed key embed xs = inr l ->
            Forall (fun kv => length (snd kv) = D) l.
Proof.
  induction xs as [| x rest IH]; intros Hembed l Hrun.
  - simpl in Hrun. injection Hrun as <-. constructor.
  - simpl in Hrun. destruct (embed x) as [err | v] eqn:Hx; [discriminate |].
    destruct (keyed key embed rest) as [err | vs] eqn:Hrest; [discriminate |].
    injection Hrun as <-. constructor.
    + simpl. exact (Hembed x v (or_introl eq_refl) Hx).
    + apply IH; [| reflexivity]. intros y u Hy. apply Hembed. right. exact Hy.
Qed.

Lemma embedInstruction_length (V : Vocabulary R) (Inst : Instruction) (e : Embedding R) :
  wellFormed V ->
  embedInstruction Rzero Radd Rmul V Inst = inr e -> length e = dimension V.
Proof.
  intros Hwf. unfold embedInstruction.
  apply aggregate_length; [| apply length_zeroEmbedding].
  intros c v _ Hc. exact (entityVector_length V (fst c) (snd c) v Hwf Hc).
Qed.

Lemma embedBlock_length (V : Vocabulary R) (B : BasicBlock) (e : Embedding R) :
  wellFormed V ->
  embedBlock Rzero Radd Rmul V B = inr e -> length e = dimension V.
Proof.
  intros Hwf. unfold embedBlock.
  apply aggregate_length; [| apply length_zeroEmbedding].
  intros Inst v _ Hv. exact (embedInstruction_length V Inst v Hwf Hv).
Qed.

Lemma embedFunction_length (V : Vocabulary R) (F : Function) (e : Embedding R) :
  wellFormed V ->
  embedFunction Rzero Radd Rmul V F = inr e -> length e = dimension V.
Proof.
  intros Hwf. unfold embedFunction.
  apply aggregate_length; [| apply length_zeroEmbedding].
  intros B v _ Hv. exact (embedBlock_length V B v Hwf Hv).
Qed.

Lemma entityVector_returns (V : Vocabulary R) (w : R) (id : EntityId) :
  N.to_nat id < canonicalSize V -> exists v, entityVector Rmul V w id = inr v.
Proof.
  unfold canonicalSize, entityVector. intros Hlt.
  destruct (nth_error (vectors V) (N.to_nat id)) as [v |] eqn:Hnth.
  - eexists. reflexivity.
  - apply nth_error_None in Hnth. lia.
Qed.

Lemma embedInstruction_returns (V : Vocabulary R) (Inst : Instruction) :
  inCatalog V Inst -> exists e, embedInstruction Rzero Radd Rmul V Inst = inr e.
Proof.
  intros (Hop & Hty & Hargs). unfold embedInstruction.
  apply aggregate_returns. intros c Hc. apply entityVector_returns.
  destruct Hc as [<- | Hc]; [exact Hop |].
  apply in_app_iff in Hc. destruct Hc as [Hc | Hc].
  - destruct (resultTypeEntity Inst) as [T |]; [| contradiction].
    destruct Hc as [<- | []]. apply Hty. reflexivity.
  - apply in_map_iff in Hc. destruct Hc as (P & <- & HP). apply Hargs. exact HP.
Qed.

Lemma embedFunction_returns (V : Vocabulary R) (F : Function) :
  (forall B Inst, In B (blocks F) -> In Inst (instructions B) -> inCatalog V Inst) ->
  exists e, embedFunction Rzero Radd Rmul V F = inr e.
Proof.
  intros Hcat. unfold embedFunction. apply aggregate_returns.
  intros B HB. unfold embedBlock. apply aggregate_returns.
  intros Inst HI. apply embedInstruction_returns. exact (Hcat B Inst HB HI).
Qed.

End AggregationProperties.

Section SessionEmbeddings.

Import EmbeddingAggregator.

Variable env : Env.

Lemma length_np_array (data : list float) : length (np_array data) = length data.
Proof. unfold np_array. rewrite firstn_all. reflexivity. Qed.

Lemma perFunction_Forall {A : Type} (P : A -> Prop)
      (f : Function -> AggregationError + list A) (Fs : list Function) :
  (forall F xs, In F Fs -> f F = inr xs -> Forall P xs) ->
  forall l, IR2Vec.perFunction f Fs = inr l -> Forall P l.
Proof.
  induction Fs as [| F rest IH]; intros Hf l Hrun.
  - simpl in Hrun. injection Hrun as <-. constructor.
  - simpl in Hrun. destruct (f F) as [err | xs] eqn:HF; [discriminate |].
    destruct (IR2Vec.perFunction f rest) as [err | ys] eqn:Hrest; [discriminate |].
    injection Hrun as <-. apply Forall_app. split.
    + exact (Hf F xs (or_introl eq_refl) HF).
    + apply IH; [| reflexivity]. intros G zs HG. apply Hf. right. exact HG.
Qed.

Lemma toPyList_lengths (D : nat) (embeddings : list (string * FloatEmbedding)) :
  Forall (fun kv => length (snd kv) = D) embeddings ->
  Forall (fun ka => length (snd ka) = D) (toPyList embeddings).
Proof.
  intros H. unfold toPyList. apply Forall_map.
  eapply Forall_impl; [| exact H].
  intros kv Hkv. simpl. rewrite length_np_array. exact Hkv.
Qed.

Lemma toPyDict_lengths (D : nat) (result : list (string * (string * FloatEmbedding))) :
  Forall (fun e => length (snd (snd e)) = D) result ->
  Forall (fun e => length (snd (snd e)) = D) (toPyDict result).
Proof.
  intros H. unfold toPyDict. apply Forall_map.
  eapply Forall_impl; [| exact H].
  intros e He. simpl. rewrite length_np_array. exact He.
Qed.

(** C7.  In a portable-IR session whose vocabulary is loaded and well
    formed, every embedding has exactly the vocabulary's dimension: the one
    of an instruction, of a block and of a function, and with them every
    array in the lists [generateInstEmbeddings] and [generateBBEmbeddings]
    return and in the map [getFuncVectorMap] returns.  For a function whose
    entities all have a slot in the vocabulary the function embedding is
    produced.  A machine-level session produces no embedding at all: its
    three embedding requests never return. *)
Theorem C7_embeddings_have_declared_dimension :
  forall (self : IR2Vec.PyIR2VecTool) (V : FloatVocabulary),
    IR2Vec.Vocab (IR2Vec.Tool self) = Some V ->
    wellFormed V ->
    (forall Inst e, IR2Vec.fembedInstruction V Inst = inr e -> length e = dimension V) /\
    (forall B e, IR2Vec.fembedBlock V B = inr e -> length e = dimension V) /\
    (forall F e, IR2Vec.fembedFunction V F = inr e -> length e = dimension V) /\
    (forall l, IR2Vec.generateInstEmbeddings env self = inr l ->
               Forall (fun ka => length (snd ka) = dimension V) l) /\
    (forall l, IR2Vec.generateBBEmbeddings self = inr l ->
               Forall (fun ka => length (snd ka) = dimension V) l) /\
    (forall l, IR2Vec.getFuncVectorMap env self = inr l ->
               Forall (fun e => length (snd (snd e)) = dimension V) l) /\
    (forall F,
        (forall B Inst, In B (blocks F) -> In Inst (instructions B) ->
                        inCatalog V Inst) ->
        exists e, IR2Vec.fembedFunction V F = inr e /\ length e = dimension V) /\
    (forall (s : MIR2Vec.St) (FunctionName : string) (vocab_path : option string),
        succeeded (fst (MIR2Vec.getFuncVectorMap env vocab_path s)) = false /\
        succeeded (fst (MIR2Vec.generateMBBEmbeddings env FunctionName vocab_path s))
          = false /\
        succeeded (fst (MIR2Vec.generateMInstEmbeddings env FunctionName vocab_path s))
          = false).
Proof.
  intros self V Hvocab Hwf.
  assert (HI : forall Inst e,
             IR2Vec.fembedInstruction V Inst = inr e -> length e = dimension V).
  { intros Inst e. apply embedInstruction_length. exact Hwf. }
  assert (HB : forall B e,
             IR2Vec.fembedBlock V B = inr e -> length e = dimension V).
  { intros B e. apply embedBlock_length. exact Hwf. }
  assert (HF : forall F e,
             IR2Vec.fembedFunction V F = inr e -> length e = dimension V).
  { intros F e. apply embedFunction_length. exact Hwf. }
  split; [exact HI |]. split; [exact HB |]. split; [exact HF |].
  split; [| split; [| split; [| split]]].
  - intros l. unfold IR2Vec.generateInstEmbeddings, IR2Vec.onSuccess.
    destruct (IR2Vec.getInstEmbeddings env (IR2Vec.Tool self)) as [err | xs] eqn:Hrun;
      [discriminate |].
    intros Hl. injection Hl as <-. apply toPyList_lengths.
    unfold IR2Vec.getInstEmbeddings in Hrun.
    eapply perFunction_Forall; [| exact Hrun].
    intros F ys _. unfold IR2Vec.getInstEmbeddings_function, IR2Vec.withVocabulary.
    rewrite Hvocab. apply keyed_lengths. intros Inst v _. apply HI.
  - intros l. unfold IR2Vec.generateBBEmbeddings, IR2Vec.onSuccess.
    destruct (IR2Vec.getBBEmbeddings (IR2Vec.Tool self)) as [err | xs] eqn:Hrun;
      [discriminate |].
    intros Hl. injection Hl as <-. apply toPyList_lengths.
    unfold IR2Vec.getBBEmbeddings in Hrun.
    eapply perFunction_Forall; [| exact Hrun].
    intros F ys _. unfold IR2Vec.getBBEmbeddings_function, IR2Vec.withVocabulary.
    rewrite Hvocab. apply keyed_lengths. intros B v _. apply HB.
  - intros l. unfold IR2Vec.getFuncVectorMap, IR2Vec.onSuccess.
    destruct (IR2Vec.getFunctionEmbeddings env (IR2Vec.Tool self)) as [err | xs] eqn:Hrun;
      [discriminate |].
    intros Hl. injection Hl as <-. apply toPyDict_lengths.
    unfold IR2Vec.getFunctionEmbeddings in Hrun.
    eapply perFunction_Forall; [| exact Hrun].
    intros F ys _. cbv beta.
    unfold IR2Vec.getFunctionEmbedding, IR2Vec.withVocabulary. rewrite Hvocab.
    destruct (IR2Vec.fembedFunction V F) as [err | v] eqn:Hv; [discriminate |].
    intros Hys. injection Hys as <-. repeat constructor. simpl. exact (HF F v Hv).
  - intros F Hcat.
    destruct (embedFunction_returns float 0%float PrimFloat.add PrimFloat.mul V F Hcat)
      as [e He].
    exists e. split; [exact He | exact (HF F e He)].
  - intros s FunctionName vocab_path. split; [| split]; reflexivity.
Qed.

End SessionEmbeddings.

(** The example session: its vocabulary has dimension 2, and the two
    instruction embeddings [generateInstEmbeddings] returns for it are
    arrays of length 2. *)
Lemma C7_embeddings_witness :
  EmbeddingAggregator.wellFormed Examples.testVocabulary /\
  exists l,
    IR2Vec.generateInstEmbeddings Examples.testEnv Examples.irSession = inr l /\
    length l = 2 /\
    Forall (fun ka => length (snd ka) = 2) l.
Proof.
  assert (Hwf : EmbeddingAggregator.wellFormed Examples.testVocabulary).
  { repeat constructor. }
  split; [exact Hwf |].
  destruct (IR2Vec.generateInstEmbeddings Examples.testEnv Examples.irSession)
    as [err | l] eqn:Hrun; [discriminate Hrun |].
  exists l. split; [reflexivity |]. split.
  - injection Hrun as <-. reflexivity.
  - destruct (C7_embeddings_have_declared_dimension Examples.testEnv
                Examples.irSession Examples.testVocabulary eq_refl Hwf)
      as (_ & _ & _ & Hinst & _).
    exact (Hinst l Hrun).
Defined.

(* ===================================================================== *)
(** * Block order and the function embedding                              *)
(* ===================================================================== *)

Section BlockOrder.

Import EmbeddingAggregator.

Variable R : Type.
Variable Rzero : R.
Variable Radd : R -> R -> R.
Variable Rmul : R -> R -> R.

Hypothesis Radd_comm : forall a b : R, Radd a b = Radd b a.
Hypothesis Radd_assoc : forall a b c : R, Radd (Radd a b) c = Radd a (Radd b c).




End BlockOrder.



(* ===================================================================== *)
(** * Further properties of the two bindings                              *)
(* ===================================================================== *)

(** The session and the process after a layout-level query of the
    machine-level session returned: the tool as the initialization left it,
    and the two events of the call. *)
Definition afterQuery (env : Env) (query : Event) (s : MIR2Vec.St) : MIR2Vec.St :=
  (fst (MIR2Vec.afterLayout env s),
   {| IR2VecVocabPath := IR2VecVocabPath (snd s);
      MIR2VecVocabPath := MIR2VecVocabPath (snd s);
      trace := trace (snd s) ++ [InitializedMIRVocabularyForLayout; query] |}).

(** The members of the machine-level session that no method assigns. *)
Definition sameSession (a b : MIR2Vec.PyMIR2VecTool) : Prop :=
  MIR2Vec.Ctx a = MIR2Vec.Ctx b /\
  MIR2Vec.Mode a = MIR2Vec.Mode b /\
  MIR2Vec.VocabInitialized a = MIR2Vec.VocabInitialized b.

(** The triplet result a Python dictionary of the bindings stands for. *)
Definition ofPyTripletDict (d : PyTripletDict) : TripletResult :=
  {| MaxRelation := max_relation d;
     Triplets := map (fun t => {| Head := fst (fst t); Tail := snd (fst t);
                                  Relation := snd t |}) (triplets d) |}.

Section MachineSessionConstruction.

Variable env : Env.

(** X1.  The constructor of the machine-level session returns exactly when
    the file is readable, the mode is ["sym"] and the machine context is set
    up.  The session it returns holds that context, a tool without
    vocabulary, the mode ["sym"] and a cleared [VocabInitialized]; the
    process has gained the set-up of the context and nothing else: neither
    vocabulary path is touched. *)
Theorem X1_machine_session_returns :
  forall (Filename Mode : string) (w : World),
    (succeeded (fst (MIR2Vec.PyMIR2VecTool_new env Filename Mode w)) = true <->
     file_good env Filename = true /\ Mode = "sym" /\
     exists C, setupMIRContext env Filename = inr C) /\
    (forall self w',
        MIR2Vec.PyMIR2VecTool_new env Filename Mode w = (Returned self, w') ->
        setupMIRContext env Filename = inr (MIR2Vec.Ctx self) /\
        getVocabulary (MIR2Vec.Tool self) = None /\
        MIR2Vec.Mode self = "sym" /\
        MIR2Vec.VocabInitialized self = false /\
        IR2VecVocabPath w' = IR2VecVocabPath w /\
        MIR2VecVocabPath w' = MIR2VecVocabPath w /\
        trace w' = trace w ++ [SetUpMIRContext Filename]).
Proof.
  intros Filename Mode w. rewrite PyMIR2VecTool_new_unfold.
  unfold MIR2Vec.fileNotValid.
  destruct (file_good env Filename); simpl.
  2:{ split.
      - split; [discriminate | intros [Hgood _]; discriminate Hgood].
      - intros self w' H. discriminate H. }
  destruct (Mode =? "sym") eqn:Hmode; simpl.
  2:{ apply String.eqb_neq in Hmode. split.
      - split; [discriminate | intros (_ & Hm & _); contradiction].
      - intros self w' H. discriminate H. }
  apply String.eqb_eq in Hmode. subst Mode.
  destruct (setupMIRContext env Filename) as [Err | C]; simpl.
  - split.
    + split; [discriminate | intros (_ & _ & C & HC); discriminate HC].
    + intros self w' H. discriminate H.
  - split.
    + split; [intros _; repeat split; exists C; reflexivity | reflexivity].
    + intros self w' H. injection H as <- <-. repeat split.
Qed.

(** X2.  The constructor of the machine-level session reports the first
    check that fails: an unreadable file whatever the mode; then a mode
    other than ["sym"], before any attempt to set the machine context up;
    then the failure of that set-up, whose rendered error ends the message.
    The first two leave the process as it was. *)
Theorem X2_machine_session_failures :
  forall (Filename Mode : string) (w : World),
    (file_good env Filename = false ->
     MIR2Vec.PyMIR2VecTool_new env Filename Mode w = (Thrown "Invalid file path", w)) /\
    (file_good env Filename = true -> Mode <> "sym" ->
     MIR2Vec.PyMIR2VecTool_new env Filename Mode w
     = (Thrown "Invalid mode. Only 'sym' mode supported.", w)) /\
    (forall Err,
        file_good env Filename = true -> Mode = "sym" ->
        setupMIRContext env Filename = inl Err ->
        fst (MIR2Vec.PyMIR2VecTool_new env Filename Mode w)
        = Thrown ("Failed to setup MIR context: " ++ Err) /\
        trace (snd (MIR2Vec.PyMIR2VecTool_new env Filename Mode w))
        = trace w ++ [SetUpMIRContext Filename]).
Proof.
  intros Filename Mode w. rewrite !PyMIR2VecTool_new_unfold.
  unfold MIR2Vec.fileNotValid. split; [| split].
  - intros ->. reflexivity.
  - intros -> Hmode. apply String.eqb_neq in Hmode. rewrite Hmode. reflexivity.
  - intros Err -> -> ->. split; reflexivity.
Qed.

(** X3.  The constructor of the portable-IR session returns exactly when
    the file is readable, the mode is ["sym"] or ["fa"], the file parses,
    the vocabulary path is not empty and the vocabulary loads from it.  The
    session it returns holds the parsed module and a tool over that module
    with the loaded vocabulary, and the process-wide path is the path
    given. *)
Theorem X3_portable_session_returns :
  forall (Filename Mode VocabOverride : string) (w : World),
    (succeeded (fst (IR2Vec.PyIR2VecTool_new env Filename Mode VocabOverride w)) = true <->
     file_good env Filename = true /\ (Mode = "sym" \/ Mode = "fa") /\
     VocabOverride <> "" /\
     exists Mod V, parseIRFile env Filename = Some Mod /\
                   IR_loadVocabulary env VocabOverride Mod = Some V) /\
    (forall self w',
        IR2Vec.PyIR2VecTool_new env Filename Mode VocabOverride w = (Returned self, w') ->
        parseIRFile env Filename = Some (IR2Vec.PyM self) /\
        IR2Vec.getModule (IR2Vec.Tool self) = IR2Vec.PyM self /\
        IR2Vec.Vocab (IR2Vec.Tool self)
          = IR_loadVocabulary env VocabOverride (IR2Vec.PyM self) /\
        IR2Vec.Vocab (IR2Vec.Tool self) <> None /\
        IR2VecVocabPath w' = VocabOverride).
Proof.
  intros Filename Mode VocabOverride w. rewrite PyIR2VecTool_new_unfold.
  unfold IR2Vec.fileNotValid.
  destruct (file_good env Filename); simpl.
  2:{ split.
      - split; [discriminate | intros [Hgood _]; discriminate Hgood].
      - intros self w' H. discriminate H. }
  destruct (Mode =? "sym") eqn:Hsym; destruct (Mode =? "fa") eqn:Hfa; simpl.
  4:{ apply String.eqb_neq in Hsym, Hfa. split.
      - split; [discriminate | intros (_ & [Hm | Hm] & _); contradiction].
      - intros self w' H. discriminate H. }
  all: assert (Hmode : Mode = "sym" \/ Mode = "fa")
    by (first [ left; apply String.eqb_eq; exact Hsym
              | right; apply String.eqb_eq; exact Hfa ]).
  all: destruct (parseIRFile env Filename) as [Mod |];
    [| split;
       [ split; [discriminate | intros (_ & _ & _ & M' & V & HM & _); discriminate HM]
       | intros self w' H; discriminate H ] ].
  all: destruct (VocabOverride =? "") eqn:Hempty;
    [ apply String.eqb_eq in Hempty; split;
      [ split; [discriminate | intros (_ & _ & Hne & _); contradiction]
      | intros self w' H; discriminate H ]
    | apply String.eqb_neq in Hempty ].
  all: destruct (IR_loadVocabulary env VocabOverride Mod) as [V |] eqn:Hload;
    [ split;
      [ split; [intros _; repeat split; auto; exists Mod, V; auto | reflexivity]
      | intros self w' H; injection H as <- <-; simpl; rewrite Hload;
        repeat split; discriminate ]
    | split;
      [ split; [discriminate
               | intros (_ & _ & _ & M' & V & HM & HV);
                 injection HM as <-; rewrite Hload in HV; discriminate HV]
      | intros self w' H; discriminate H ] ].
Qed.

(** X4.  A construction of the portable-IR session that fails leaves the
    process-wide vocabulary path as it was, with one exception: when it
    fails because the vocabulary does not initialize, the path has already
    been overwritten with the one given.  The machine-level path is never
    touched. *)
Theorem X4_portable_session_failure_and_path :
  forall (Filename Mode VocabOverride what : string) (w w' : World),
    IR2Vec.PyIR2VecTool_new env Filename Mode VocabOverride w = (Thrown what, w') ->
    MIR2VecVocabPath w' = MIR2VecVocabPath w /\
    (what = "Failed to initialize IR2Vec vocabulary" ->
     IR2VecVocabPath w' = VocabOverride /\ VocabOverride <> "") /\
    (what <> "Failed to initialize IR2Vec vocabulary" ->
     IR2VecVocabPath w' = IR2VecVocabPath w).
Proof.
  intros Filename Mode VocabOverride what w w'.
  rewrite PyIR2VecTool_new_unfold.
  destruct (IR2Vec.fileNotValid env Filename).
  { intros H. injection H as <- <-. repeat split; try reflexivity; discriminate. }
  destruct (negb (Mode =? "sym") && negb (Mode =? "fa")).
  { intros H. injection H as <- <-. repeat split; try reflexivity; discriminate. }
  destruct (parseIRFile env Filename) as [Mod |].
  2:{ intros H. injection H as <- <-. repeat split; try reflexivity; discriminate. }
  destruct (VocabOverride =? "") eqn:Hempty.
  { intros H. injection H as <- <-. repeat split; try reflexivity; discriminate. }
  apply String.eqb_neq in Hempty.
  destruct (IR_loadVocabulary env VocabOverride Mod); [discriminate |].
  intros H. injection H as <- <-. split; [reflexivity |]. split.
  - intros _. split; [reflexivity | exact Hempty].
  - intros Hne. contradiction.
Qed.

End MachineSessionConstruction.

(** With the vocabulary file [bad.json], which does not load, the
    construction fails and leaves [bad.json] as the process-wide path. *)
Lemma X4_portable_session_failure_witness :
  IR2Vec.PyIR2VecTool_new Examples.testEnv "test.ll" "sym" "bad.json" Examples.world0
  = (Thrown "Failed to initialize IR2Vec vocabulary",
     afterInitialization "test.ll" "bad.json" Examples.world0) /\
  IR2VecVocabPath (afterInitialization "test.ll" "bad.json" Examples.world0) = "bad.json".
Proof.
  assert (Hrun : IR2Vec.PyIR2VecTool_new Examples.testEnv "test.ll" "sym" "bad.json"
                   Examples.world0
                 = (Thrown "Failed to initialize IR2Vec vocabulary",
                    afterInitialization "test.ll" "bad.json" Examples.world0)).
  { reflexivity. }
  split; [exact Hrun |].
  exact (proj1 (proj1 (proj2 (X4_portable_session_failure_and_path Examples.testEnv
                                 "test.ll" "sym" "bad.json" _ _ _ Hrun)) eq_refl)).
Defined.

Section MachineSessionMethods.

Import MIR2Vec.

Variable env : Env.

(** A function the module finds under a name carries that name. *)
Lemma getFunction_name (Mod : Module) (Name : string) (F : Function) :
  getFunction Mod Name = Some F -> getName F = Name.
Proof.
  unfold getFunction. intros Hfind. apply find_some in Hfind.
  apply String.eqb_eq. exact (proj2 Hfind).
Qed.

(** The lookup reads the session and writes nothing. *)
Lemma getMachineFunction_keeps_state (s : St) (FunctionName : string) :
  snd (getMachineFunction FunctionName s) = s.
Proof.
  destruct s as [py w]. unfold getMachineFunction, bind, self, gets. simpl.
  destruct (getFunction (CtxM (Ctx py)) FunctionName) as [F |]; [| reflexivity].
  destruct (isDeclaration F); [reflexivity |].
  destruct (MMI_getMachineFunction (Ctx py) F); reflexivity.
Qed.

(** X5.  [getMachineFunction] returns a machine function exactly when the
    module has a function of that name, the function has a body, and the
    machine module information holds a lowered form for it, which is then
    the one returned.  Returning or throwing, it changes neither the session
    nor the process. *)
Theorem X5_getMachineFunction_returns :
  forall (s : St) (FunctionName : string),
    (forall MF,
        fst (getMachineFunction FunctionName s) = Returned MF <->
        exists F,
          getFunction (CtxM (Ctx (fst s))) FunctionName = Some F /\
          getName F = FunctionName /\
          isDeclaration F = false /\
          MMI_getMachineFunction (Ctx (fst s)) F = Some MF) /\
    snd (getMachineFunction FunctionName s) = s.
Proof.
  intros s FunctionName. split; [| apply getMachineFunction_keeps_state].
  destruct s as [py w]. intros MF.
  unfold getMachineFunction, bind, self, gets. simpl.
  destruct (getFunction (CtxM (Ctx py)) FunctionName) as [F |] eqn:Hlookup.
  2:{ split; [discriminate |]. intros (F & HF & _). discriminate HF. }
  pose proof (getFunction_name _ _ _ Hlookup) as Hname.
  destruct (isDeclaration F) eqn:Hdecl.
  { split; [discriminate |].
    intros (G & HG & _ & Hbody & _). injection HG as <-. congruence. }
  destruct (MMI_getMachineFunction (Ctx py) F) as [MF0 |] eqn:HMF.
  - split.
    + intros H. injection H as <-. exists F. repeat split; assumption.
    + intros (G & HG & _ & _ & HMF'). injection HG as <-.
      unfold ret. simpl. congruence.
  - split; [discriminate |].
    intros (G & HG & _ & _ & HMF'). injection HG as <-. congruence.
Qed.

(** [generateTriplets], outcome by outcome. *)
Lemma generateTriplets_unfold (s : St) :
  generateTriplets env s =
  let r := MIR_initializeVocabularyForLayout env (Ctx (fst s)) (Tool (fst s)) in
  if negb (fst r)
  then (Thrown "Failed to initialize MIR2Vec vocabulary", afterLayout env s)
  else if assertionsEnabled env && isNull (getVocabulary (snd r))
  then (Aborted "MIR2Vec vocabulary should be initialized at this point",
        afterLayout env s)
  else (Returned (toPyTripletDict (MIR_getTriplets env (snd r) (CtxM (Ctx (fst s))))),
        afterQuery env QueriedTriplets s).
Proof.
  destruct s as [py w].
  cbv [generateTriplets bind Tool_initializeVocabularyForLayout
       verifyMIR2VecVocabulary self inWorld emit setTool modify gets ret when
       throw abort afterLayout afterQuery fst snd].
  destruct (MIR_initializeVocabularyForLayout env (Ctx py) (Tool py)) as [ok T'].
  destruct ok; cbn; [| reflexivity].
  destruct (assertionsEnabled env); destruct (getVocabulary T'); cbn;
    rewrite <- ?app_assoc; reflexivity.
Qed.

(** [getEntityMappings], outcome by outcome. *)
Lemma getEntityMappings_unfold (s : St) :
  getEntityMappings env s =
  let r := MIR_initializeVocabularyForLayout env (Ctx (fst s)) (Tool (fst s)) in
  if negb (fst r)
  then (Thrown "Failed to initialize MIR2Vec vocabulary", afterLayout env s)
  else if assertionsEnabled env && isNull (getVocabulary (snd r))
  then (Aborted "MIR2Vec vocabulary should be initialized at this point",
        afterLayout env s)
  else (Returned (MIR_getEntityMappings env (snd r)),
        afterQuery env QueriedEntityMappings s).
Proof.
  destruct s as [py w].
  cbv [getEntityMappings bind Tool_initializeVocabularyForLayout
       verifyMIR2VecVocabulary self inWorld emit setTool modify gets ret when
       throw abort afterLayout afterQuery fst snd].
  destruct (MIR_initializeVocabularyForLayout env (Ctx py) (Tool py)) as [ok T'].
  destruct ok; cbn; [| reflexivity].
  destruct (assertionsEnabled env); destruct (getVocabulary T'); cbn;
    rewrite <- ?app_assoc; reflexivity.
Qed.

(** X6.  When the layout-level initialization answers [false],
    [generateTriplets] and [getEntityMappings] throw
    "Failed to initialize MIR2Vec vocabulary" without asking the tool for
    triplets or entities; when it answers [true] but leaves no vocabulary, a
    build with assertions stops at the assertion.  In both cases the session
    keeps the tool as the initialization left it. *)
Theorem X6_layout_queries_fail :
  forall (s : St),
    let r := MIR_initializeVocabularyForLayout env (Ctx (fst s)) (Tool (fst s)) in
    (fst r = false ->
     generateTriplets env s
       = (Thrown "Failed to initialize MIR2Vec vocabulary", afterLayout env s) /\
     getEntityMappings env s
       = (Thrown "Failed to initialize MIR2Vec vocabulary", afterLayout env s)) /\
    (fst r = true -> assertionsEnabled env = true -> getVocabulary (snd r) = None ->
     generateTriplets env s
       = (Aborted "MIR2Vec vocabulary should be initialized at this point",
          afterLayout env s) /\
     getEntityMappings env s
       = (Aborted "MIR2Vec vocabulary should be initialized at this point",
          afterLayout env s)) /\
    Tool (fst (afterLayout env s)) = snd r /\
    trace (snd (afterLayout env s))
      = trace (snd s) ++ [InitializedMIRVocabularyForLayout].
Proof.
  intros s r. rewrite generateTriplets_unfold, getEntityMappings_unfold.
  fold r. cbv zeta. split; [| split; [| split; reflexivity]].
  - intros ->. split; reflexivity.
  - intros -> -> ->. split; reflexivity.
Qed.

(** X8.  The layout-level queries need no vocabulary file: whatever their
    outcome, [generateTriplets] and [getEntityMappings] leave both
    process-wide vocabulary paths as they were and never run the full
    initialization.  Each call runs the layout-level initialization again,
    and the tool is asked for its triplets or entities exactly when the call
    returns. *)
Theorem X8_layout_queries_need_no_path :
  forall (s : St),
    let t := generateTriplets env s in
    let e := getEntityMappings env s in
    (IR2VecVocabPath (snd (snd t)) = IR2VecVocabPath (snd s) /\
     MIR2VecVocabPath (snd (snd t)) = MIR2VecVocabPath (snd s) /\
     IR2VecVocabPath (snd (snd e)) = IR2VecVocabPath (snd s) /\
     MIR2VecVocabPath (snd (snd e)) = MIR2VecVocabPath (snd s)) /\
    (trace (snd (snd t)) = trace (snd s) ++
       (if succeeded (fst t)
        then [InitializedMIRVocabularyForLayout; QueriedTriplets]
        else [InitializedMIRVocabularyForLayout])) /\
    (trace (snd (snd e)) = trace (snd s) ++
       (if succeeded (fst e)
        then [InitializedMIRVocabularyForLayout; QueriedEntityMappings]
        else [InitializedMIRVocabularyForLayout])).
Proof.
  intros s t e. subst t e.
  rewrite generateTriplets_unfold, getEntityMappings_unfold. cbv zeta.
  destruct (negb (fst (MIR_initializeVocabularyForLayout env (Ctx (fst s)) (Tool (fst s))))).
  { repeat split. }
  destruct (assertionsEnabled env &&
            isNull (getVocabulary
                      (snd (MIR_initializeVocabularyForLayout env (Ctx (fst s))
                              (Tool (fst s)))))).
  { repeat split. }
  repeat split.
Qed.

(** X7.  No method of the machine-level session assigns its context, its
    mode or its [VocabInitialized] flag: after any of the five public
    methods and of the two private helpers, returned or not, the three are
    what they were.  The flag the constructor clears is therefore never
    set. *)
Theorem X7_session_members_unassigned :
  forall (s : St) (FunctionName : string) (vocab_path : option string) (path : string),
    sameSession (fst (snd (getEntityMappings env s))) (fst s) /\
    sameSession (fst (snd (generateTriplets env s))) (fst s) /\
    sameSession (fst (snd (getFuncVectorMap env vocab_path s))) (fst s) /\
    sameSession (fst (snd (generateMBBEmbeddings env FunctionName vocab_path s))) (fst s) /\
    sameSession (fst (snd (generateMInstEmbeddings env FunctionName vocab_path s))) (fst s) /\
    sameSession (fst (snd (initializeMIR2VecVocabularyForEmb env path s))) (fst s) /\
    sameSession (fst (snd (getMachineFunction FunctionName s))) (fst s).
Proof.
  intros s FunctionName vocab_path path.
  assert (Hrefl : sameSession (fst s) (fst s)) by (repeat split).
  split; [| split; [| split; [| split; [| split; [| split]]]]].
  - rewrite getEntityMappings_unfold. cbv zeta.
    destruct (negb _); [repeat split |]. destruct (_ && _); repeat split.
  - rewrite generateTriplets_unfold. cbv zeta.
    destruct (negb _); [repeat split |]. destruct (_ && _); repeat split.
  - exact Hrefl.
  - exact Hrefl.
  - exact Hrefl.
  - destruct s as [py w].
    unfold sameSession, initializeMIR2VecVocabularyForEmb, Tool_initializeVocabulary,
      verifyMIR2VecVocabulary, setMIR2VecVocabPath, getMIR2VecVocabPath,
      bind, self, inWorld, emit, setTool, modify, gets, ret, when, throw, abort.
    simpl.
    destruct (MIR_initializeVocabulary env path (Ctx py) (Tool py)) as [ok T'].
    destruct ok; simpl; [| repeat split].
    destruct (assertionsEnabled env); destruct (getVocabulary T'); repeat split.
  - rewrite getMachineFunction_keeps_state. exact Hrefl.
Qed.

End MachineSessionMethods.

Section PythonValues.

Variable env : Env.

Lemma ofPy_toPy_triplets (l : list Triplet) :
  map (fun t : N * N * N => {| Head := fst (fst t); Tail := snd (fst t);
                               Relation := snd t |})
      (map (fun t => (Head t, Tail t, Relation t)) l) = l.
Proof.
  induction l as [| [h t r] l IH]; [reflexivity |].
  simpl. rewrite IH. reflexivity.
Qed.

(** X9.  The dictionary [generateTriplets] builds loses nothing: it has one
    tuple per triplet, in the same order, and reading the tuples back as
    (head, tail, relation) with [max_relation] gives the tool's result
    again.  So what the machine-level [generateTriplets] returns stands for
    exactly the triplets of the tool after the layout-level initialization,
    and what the portable-IR one returns for exactly the tool's. *)
Theorem X9_triplet_dictionary_is_lossless :
  (forall result : TripletResult,
      ofPyTripletDict (toPyTripletDict result) = result /\
      length (triplets (toPyTripletDict result)) = length (Triplets result) /\
      max_relation (toPyTripletDict result) = MaxRelation result /\
      (forall i t, nth_error (Triplets result) i = Some t ->
                   nth_error (triplets (toPyTripletDict result)) i
                   = Some (Head t, Tail t, Relation t))) /\
  (forall (s : MIR2Vec.St) (d : PyTripletDict),
      fst (MIR2Vec.generateTriplets env s) = Returned d ->
      ofPyTripletDict d
      = MIR_getTriplets env
          (snd (MIR_initializeVocabularyForLayout env (MIR2Vec.Ctx (fst s))
                  (MIR2Vec.Tool (fst s))))
          (CtxM (MIR2Vec.Ctx (fst s)))) /\
  (forall self : IR2Vec.PyIR2VecTool,
      ofPyTripletDict (IR2Vec.generateTriplets self)
      = TripletExtractor.getTriplets (IR2Vec.getModule (IR2Vec.Tool self))).
Proof.
  assert (Hround : forall result, ofPyTripletDict (toPyTripletDict result) = result).
  { intros [m l]. unfold ofPyTripletDict, toPyTripletDict. simpl.
    rewrite ofPy_toPy_triplets. reflexivity. }
  split; [| split].
  - intros result. split; [apply Hround |]. split; [apply length_map |].
    split; [reflexivity |].
    intros i t Hnth. unfold toPyTripletDict. simpl.
    rewrite nth_error_map, Hnth. reflexivity.
  - intros s d. rewrite generateTriplets_unfold. cbv zeta.
    destruct (negb _); [discriminate |]. destruct (_ && _); [discriminate |].
    simpl. intros H. injection H as <-. apply Hround.
  - intros self. apply Hround.
Qed.



(** X11.  A call of [initEmbedding] that leaves the mode out is a
    construction with mode ["sym"], in both bindings, and so never fails on
    the mode: on the machine-level side it fails only for an unreadable file
    or a failed set-up of the machine context. *)
Theorem X11_default_mode_is_sym :
  forall (filename : string) (vocab_override : option string) (w : World),
    MIR2Vec.initEmbedding env filename None w
      = MIR2Vec.PyMIR2VecTool_new env filename "sym" w /\
    IR2Vec.initEmbedding env filename None vocab_override w
      = IR2Vec.PyIR2VecTool_new env filename "sym" (argOr "" vocab_override) w /\
    fst (MIR2Vec.initEmbedding env filename None w)
      <> Thrown "Invalid mode. Only 'sym' mode supported." /\
    fst (IR2Vec.initEmbedding env filename None vocab_override w)
      <> Thrown "Invalid mode. Use 'sym' or 'fa'" /\
    (forall what,
        fst (MIR2Vec.initEmbedding env filename None w) = Thrown what ->
        what = "Invalid file path" \/
        exists Err, setupMIRContext env filename = inl Err /\
                    what = ("Failed to setup MIR context: " ++ Err)%string).
Proof.
  intros filename vocab_override w.
  split; [reflexivity |]. split; [reflexivity |].
  unfold MIR2Vec.initEmbedding, IR2Vec.initEmbedding. simpl (argOr "sym" None).
  rewrite PyMIR2VecTool_new_unfold, PyIR2VecTool_new_unfold.
  split; [| split].
  - destruct (MIR2Vec.fileNotValid env filename); [discriminate |]. simpl.
    destruct (setupMIRContext env filename); simpl; discriminate.
  - destruct (IR2Vec.fileNotValid env filename); [discriminate |]. simpl.
    destruct (parseIRFile env filename) as [Mod |]; [| discriminate].
    destruct (argOr "" vocab_override =? ""); [discriminate |].
    destruct (IR_loadVocabulary env (argOr "" vocab_override) Mod); discriminate.
  - intros what.
    destruct (MIR2Vec.fileNotValid env filename).
    { intros H. injection H as <-. left. reflexivity. }
    simpl. destruct (setupMIRContext env filename) as [Err | C]; [| discriminate].
    intros H. injection H as <-. right. exists Err. split; reflexivity.
Qed.

(** X12.  Triplets need no vocabulary file from the first call on: when
    [initEmbedding] returns a machine-level session and the layout-level
    initialization succeeds on it, [generateTriplets] on that session
    returns; over the two calls the process has seen the set-up of the
    context, the layout-level initialization and the triplet query, in this
    order, and both vocabulary paths are still what they were before the
    session was built. *)
Theorem X12_construct_then_triplets :
  forall (filename : string) (mode : option string) (w w1 : World)
         (self : MIR2Vec.PyMIR2VecTool),
    MIR2Vec.initEmbedding env filename mode w = (Returned self, w1) ->
    MIR2Vec.layoutInitializationSucceeds env self ->
    exists d self2 w2,
      MIR2Vec.generateTriplets env (self, w1) = (Returned d, (self2, w2)) /\
      ofPyTripletDict d
        = MIR_getTriplets env (MIR2Vec.Tool self2) (CtxM (MIR2Vec.Ctx self)) /\
      trace w2 = trace w ++ [SetUpMIRContext filename;
                             InitializedMIRVocabularyForLayout;
                             QueriedTriplets] /\
      IR2VecVocabPath w2 = IR2VecVocabPath w /\
      MIR2VecVocabPath w2 = MIR2VecVocabPath w.
Proof.
  intros filename mode w w1 self Hnew [Hok Hvoc].
  unfold MIR2Vec.initEmbedding in Hnew. rewrite PyMIR2VecTool_new_unfold in Hnew.
  destruct (MIR2Vec.fileNotValid env filename); [discriminate |].
  destruct (negb (argOr "sym" mode =? "sym")); [discriminate |].
  cbv zeta in Hnew.
  destruct (setupMIRContext env filename) as [Err | C]; [discriminate |].
  injection Hnew as <- <-.
  rewrite generateTriplets_unfold. cbv zeta. simpl fst in *. simpl MIR2Vec.Ctx in *.
  simpl MIR2Vec.Tool in *.
  rewrite Hok. simpl negb. cbv iota.
  assert (Hgo : assertionsEnabled env &&
                MIR2Vec.isNull
                  (getVocabulary
                     (snd (MIR_initializeVocabularyForLayout env C
                             {| getVocabulary := None |}))) = false).
  { destruct Hvoc as [-> | Hsome]; [reflexivity |].
    destruct (getVocabulary _); [apply andb_false_r | congruence]. }
  rewrite Hgo.
  eexists. eexists. eexists. split; [reflexivity |].
  simpl. split.
  - destruct (MIR_getTriplets env _ _) as [m l]. unfold ofPyTripletDict, toPyTripletDict.
    simpl. rewrite ofPy_toPy_triplets. reflexivity.
  - rewrite <- app_assoc. repeat split.
Qed.

End PythonValues.

(** [initEmbedding("test.mir")] returns the example session, whose
    layout-level initialization succeeds: its triplets are then returned,
    with both vocabulary paths still empty. *)
Lemma X12_construct_then_triplets_witness :
  MIR2Vec.initEmbedding Examples.testEnv "test.mir" None Examples.world0
    = (Returned Examples.mirSession,
       {| IR2VecVocabPath := ""; MIR2VecVocabPath := "";
          trace := [SetUpMIRContext "test.mir"] |}) /\
  exists d self2 w2,
    MIR2Vec.generateTriplets Examples.testEnv
      (Examples.mirSession,
       {| IR2VecVocabPath := ""; MIR2VecVocabPath := "";
          trace := [SetUpMIRContext "test.mir"] |})
    = (Returned d, (self2, w2)) /\
    IR2VecVocabPath w2 = "" /\ MIR2VecVocabPath w2 = "".
Proof.
  assert (Hnew : MIR2Vec.initEmbedding Examples.testEnv "test.mir" None Examples.world0
                 = (Returned Examples.mirSession,
                    {| IR2VecVocabPath := ""; MIR2VecVocabPath := "";
                       trace := [SetUpMIRContext "test.mir"] |})).
  { reflexivity. }
  split; [exact Hnew |].
  destruct (X12_construct_then_triplets Examples.testEnv "test.mir" None
              Examples.world0 _ Examples.mirSession Hnew)
    as (d & self2 & w2 & Hrun & _ & _ & Hir & Hmir).
  - split; [reflexivity | right; discriminate].
  - exists d, self2, w2. split; [exact Hrun |]. split; assumption.
Defined.

Section FullInitialization.

Variable env : Env.

(** X13.  [initializeMIR2VecVocabularyForEmb] first overwrites the
    process-wide machine-level path with the path it is given and then lets
    the tool initialize under it.  It returns exactly when the tool answers
    [true] and, in a build with assertions, has a vocabulary; when the tool
    answers [false] it throws "Failed to initialize MIR2Vec vocabulary".
    Whatever the outcome, the path stays overwritten and the session keeps
    the tool as the initialization left it. *)
Theorem X13_full_initialization_helper :
  forall (vocab_path : string) (s : MIR2Vec.St),
    let r := MIR_initializeVocabulary env vocab_path (MIR2Vec.Ctx (fst s))
               (MIR2Vec.Tool (fst s)) in
    let out := MIR2Vec.initializeMIR2VecVocabularyForEmb env vocab_path s in
    (fst out = Returned tt <->
     fst r = true /\
     (assertionsEnabled env = false \/ getVocabulary (snd r) <> None)) /\
    (fst r = false -> fst out = Thrown "Failed to initialize MIR2Vec vocabulary") /\
    MIR2VecVocabPath (snd (snd out)) = vocab_path /\
    IR2VecVocabPath (snd (snd out)) = IR2VecVocabPath (snd s) /\
    MIR2Vec.Tool (fst (snd out)) = snd r.
Proof.
  intros vocab_path [py w]. simpl fst. simpl snd.
  unfold MIR2Vec.initializeMIR2VecVocabularyForEmb, MIR2Vec.Tool_initializeVocabulary,
    MIR2Vec.verifyMIR2VecVocabulary, MIR2Vec.setMIR2VecVocabPath,
    MIR2Vec.getMIR2VecVocabPath, MIR2Vec.self, MIR2Vec.inWorld, MIR2Vec.setTool,
    bind, emit, modify, gets, ret, when, throw, abort.
  simpl.
  destruct (MIR_initializeVocabulary env vocab_path (MIR2Vec.Ctx py) (MIR2Vec.Tool py))
    as [ok T'].
  destruct ok; simpl.
  - destruct (assertionsEnabled env); destruct (getVocabulary T') as [v |]; simpl.
    + split; [| split; [discriminate | repeat split]].
      split; [intros _; split; [reflexivity | right; discriminate] | reflexivity].
    + split; [| split; [discriminate | repeat split]].
      split; [discriminate |]. intros [_ [Hoff | Hsome]]; [discriminate | congruence].
    + split; [| split; [discriminate | repeat split]].
      split; [intros _; split; [reflexivity | left; reflexivity] | reflexivity].
    + split; [| split; [discriminate | repeat split]].
      split; [intros _; split; [reflexivity | left; reflexivity] | reflexivity].
  - split; [| repeat split].
    split; [discriminate | intros [Hok _]; discriminate Hok].
Qed.

(** X14.  The constructor of the portable-IR session reports the first
    check that fails, in this order: an unreadable file; a mode other than
    ["sym"] and ["fa"], before the file is parsed; a file that does not
    parse, whatever the vocabulary path; an empty vocabulary path, before
    the process-wide path is set; a vocabulary that does not initialize. *)
Theorem X14_portable_session_failures :
  forall (Filename Mode VocabOverride : string) (w : World),
    let out := IR2Vec.PyIR2VecTool_new env Filename Mode VocabOverride w in
    (file_good env Filename = false -> out = (Thrown "Invalid file path", w)) /\
    (file_good env Filename = true -> Mode <> "sym" -> Mode <> "fa" ->
     out = (Thrown "Invalid mode. Use 'sym' or 'fa'", w)) /\
    (file_good env Filename = true -> Mode = "sym" \/ Mode = "fa" ->
     parseIRFile env Filename = None ->
     out = (Thrown "Failed to parse IR file.", afterParse Filename w)) /\
    (forall Mod,
        file_good env Filename = true -> Mode = "sym" \/ Mode = "fa" ->
        parseIRFile env Filename = Some Mod -> VocabOverride = "" ->
        out = (Thrown "Error - Empty Vocab Path not allowed", afterParse Filename w)) /\
    (forall Mod,
        file_good env Filename = true -> Mode = "sym" \/ Mode = "fa" ->
        parseIRFile env Filename = Some Mod -> VocabOverride <> "" ->
        IR_loadVocabulary env VocabOverride Mod = None ->
        out = (Thrown "Failed to initialize IR2Vec vocabulary",
               afterInitialization Filename VocabOverride w)).
Proof.
  intros Filename Mode VocabOverride w out. subst out.
  rewrite PyIR2VecTool_new_unfold. unfold IR2Vec.fileNotValid.
  split; [| split; [| split; [| split]]].
  - intros ->. reflexivity.
  - intros -> Hsym Hfa. apply String.eqb_neq in Hsym, Hfa.
    rewrite Hsym, Hfa. reflexivity.
  - intros -> Hmode ->. simpl. destruct Hmode as [-> | ->]; reflexivity.
  - intros Mod -> Hmode -> ->. simpl. destruct Hmode as [-> | ->]; reflexivity.
  - intros Mod -> Hmode -> Hne ->. apply String.eqb_neq in Hne. simpl.
    rewrite Hne. destruct Hmode as [-> | ->]; reflexivity.
Qed.

End FullInitialization.

(** A process like that of the examples, in which the machine-level tool
    refuses the layout-level initialization. *)
Definition refusingEnv : Env :=
  {| file_good := file_good Examples.testEnv;
     parseIRFile := parseIRFile Examples.testEnv;
     IR_loadVocabulary := IR_loadVocabulary Examples.testEnv;
     setupMIRContext := setupMIRContext Examples.testEnv;
     MIR_initializeVocabulary := MIR_initializeVocabulary Examples.testEnv;
     MIR_initializeVocabularyForLayout := fun _ T => (false, T);
     MIR_getEntityMappings := MIR_getEntityMappings Examples.testEnv;
     MIR_getTriplets := MIR_getTriplets Examples.testEnv;
     MIR_getFunctionEmbeddings := MIR_getFunctionEmbeddings Examples.testEnv;
     MIR_getMBBEmbeddings := MIR_getMBBEmbeddings Examples.testEnv;
     MIR_getMInstEmbeddings := MIR_getMInstEmbeddings Examples.testEnv;
     demangle := demangle Examples.testEnv;
     instructionKey := instructionKey Examples.testEnv;
     assertionsEnabled := true |}.

(** [missing.mir] cannot be read: the machine-level constructor says so even
    with the mode ['fa']; on the readable [test.mir] it reports the mode. *)
Lemma X2_machine_session_failures_witness :
  MIR2Vec.PyMIR2VecTool_new Examples.testEnv "missing.mir" "fa" Examples.world0
    = (Thrown "Invalid file path", Examples.world0) /\
  MIR2Vec.PyMIR2VecTool_new Examples.testEnv "test.mir" "fa" Examples.world0
    = (Thrown "Invalid mode. Only 'sym' mode supported.", Examples.world0).
Proof.
  split.
  - apply (X2_machine_session_failures Examples.testEnv "missing.mir" "fa"
             Examples.world0). reflexivity.
  - apply (X2_machine_session_failures Examples.testEnv "test.mir" "fa"
             Examples.world0); [reflexivity | discriminate].
Defined.

(** When the tool refuses the layout-level initialization, the triplets of
    the example session are not returned and the tool is never asked for
    them. *)
Lemma X6_layout_queries_fail_witness :
  fst (MIR2Vec.generateTriplets refusingEnv (Examples.mirSession, Examples.world0))
    = Thrown "Failed to initialize MIR2Vec vocabulary" /\
  trace (snd (snd (MIR2Vec.generateTriplets refusingEnv
                     (Examples.mirSession, Examples.world0))))
    = [InitializedMIRVocabularyForLayout].
Proof.
  destruct (X6_layout_queries_fail refusingEnv (Examples.mirSession, Examples.world0))
    as (Hfalse & _ & _ & Htrace).
  destruct (Hfalse eq_refl) as [Htriplets _].
  rewrite Htriplets. split; [reflexivity | exact Htrace].
Defined.

(** On the readable [test.ll] the mode ["flow"] is reported before the file
    is parsed, and the vocabulary file [bad.json] last. *)
Lemma X14_portable_session_failures_witness :
  IR2Vec.PyIR2VecTool_new Examples.testEnv "test.ll" "flow" "vocab.json" Examples.world0
    = (Thrown "Invalid mode. Use 'sym' or 'fa'", Examples.world0) /\
  IR2Vec.PyIR2VecTool_new Examples.testEnv "test.ll" "fa" "bad.json" Examples.world0
    = (Thrown "Failed to initialize IR2Vec vocabulary",
       afterInitialization "test.ll" "bad.json" Examples.world0).
Proof.
  split.
  - apply (X14_portable_session_failures Examples.testEnv "test.ll" "flow" "vocab.json"
             Examples.world0); [reflexivity | discriminate | discriminate].
  - apply (proj2 (proj2 (proj2 (proj2
             (X14_portable_session_failures Examples.testEnv "test.ll" "fa" "bad.json"
                Examples.world0)))) Examples.testModule);
      [reflexivity | right; reflexivity | reflexivity | discriminate | reflexivity].
Defined.
